(** * LocationController and LocationBroadcast: a shallow embedding

    The development follows [Shared/LocationController.cpp], the member
    declarations of [Shared/LocationBroadcast.h] and
    [Shared/utilities/GraphicsOverlaysResultsManager.cpp].

    - C++ [double] (and Qt's [qreal]) is IEEE 754 binary64: it is modelled by
      Rocq's primitive [float], so [-], [+], [std::abs] and [<] are the
      machine operations, NaN and the infinities included.
    - The controller is a record of its member variables.  A pointer member
      is an [option]: [None] is [nullptr].
    - A member function is a computation in a small monad that threads the
      controller, records the Qt signals emitted, in order, and can stop on
      a call through a null pointer.
    - The lambdas given to [connect] are the handlers [on...]; the platform
      decides when they run and with which arguments. *)

From Stdlib Require Import PrimFloat FloatOps Bool List String ZArith.
From Stdlib Require Import FloatAxioms SpecFloat PArith Lia.
Import ListNotations.

Local Open Scope string_scope.
Local Open Scope list_scope.

(** ** Value types of Qt and of the ArcGIS runtime *)

(** A [QUrl] naming a local file is identified with the path of that file:
    [QUrl::fromLocalFile] and [QUrl::toLocalFile] are inverse to each other
    on such URLs, and the default-constructed [QUrl] is the empty path. *)
Definition QUrl : Type := string.
Definition fromLocalFile (path : string) : QUrl := path.
Definition toLocalFile (url : QUrl) : string := url.

Inductive SpatialReference : Type :=
| wgs84.

(** [Point(x, y, sr)] has no z value, [Point(x, y, z, sr)] has one. *)
Record Point : Type := mkPoint {
  point_x : float;
  point_y : float;
  point_z : option float;
  point_spatialReference : SpatialReference
}.

Inductive CoordinateType : Type :=
| InvalidCoordinate
| Coordinate2D
| Coordinate3D.

(** What the position handler reads of a [QGeoCoordinate]. *)
Record QGeoCoordinate : Type := mkQGeoCoordinate {
  coordinate_isValid : bool;
  coordinate_type : CoordinateType;
  longitude : float;
  latitude : float;
  altitude : float
}.

Record QGeoPositionInfo : Type := mkQGeoPositionInfo {
  info_isValid : bool;
  coordinate : QGeoCoordinate
}.

Record QCompassReading : Type := mkQCompassReading {
  azimuth : float
}.

(** ** The objects the controller owns *)

(** Modelled from the spec: GPXLocationSimulator.cpp is not among the
    sources.  The track-log player is either started (emitting updates on
    its own schedule) or not, and replays the log it was last pointed to. *)
Record GPXLocationSimulator : Type := mkGPXLocationSimulator {
  sim_started : bool;
  sim_gpxFile : string
}.

(** Modelled from the spec: the constructor of the player, which is not
    among the sources.  A new player is not started and has no log. *)
Definition new_GPXLocationSimulator : GPXLocationSimulator :=
  {| sim_started := false; sim_gpxFile := "" |}.

(** Modelled from the spec: [GPXLocationSimulator::startUpdates], which is
    not among the sources, starts the delivery of updates. *)
Definition sim_startUpdates (sim : GPXLocationSimulator) : GPXLocationSimulator :=
  {| sim_started := true; sim_gpxFile := sim_gpxFile sim |}.

(** Modelled from the spec: [GPXLocationSimulator::stopUpdates], which is
    not among the sources, stops the delivery of updates. *)
Definition sim_stopUpdates (sim : GPXLocationSimulator) : GPXLocationSimulator :=
  {| sim_started := false; sim_gpxFile := sim_gpxFile sim |}.

(** Modelled from the spec: [GPXLocationSimulator::setGpxFile], which is not
    among the sources, re-points the existing player to another log; its
    result is ignored by the controller. *)
Definition setGpxFile (fileName : string) (sim : GPXLocationSimulator)
  : GPXLocationSimulator :=
  {| sim_started := sim_started sim; sim_gpxFile := fileName |}.

(** Qt's position source, as far as the controller drives it. *)
Record QGeoPositionInfoSource : Type := mkQGeoPositionInfoSource {
  source_updating : bool
}.

Definition source_startUpdates (_ : QGeoPositionInfoSource) : QGeoPositionInfoSource :=
  {| source_updating := true |}.

Definition source_stopUpdates (_ : QGeoPositionInfoSource) : QGeoPositionInfoSource :=
  {| source_updating := false |}.

(** Qt's compass sensor, as far as the controller drives it. *)
Record QCompass : Type := mkQCompass {
  compass_active : bool
}.

Definition new_QCompass : QCompass := {| compass_active := false |}.
Definition compass_start (_ : QCompass) : QCompass := {| compass_active := true |}.
Definition compass_stop (_ : QCompass) : QCompass := {| compass_active := false |}.

(** Of the graphics overlay only the visibility is driven from the code
    modelled here. *)
Record GraphicsOverlay : Type := mkGraphicsOverlay {
  overlay_visible : bool
}.

Definition setVisible (v : bool) (_ : GraphicsOverlay) : GraphicsOverlay :=
  {| overlay_visible := v |}.

(** ** The platform *)

(** [dataPath] is [DsaUtility::dataPath()].  [createDefaultSource] is the
    result of [QGeoPositionInfoSource::createDefaultSource]: Qt returns a
    null pointer when the system has no default position source or the
    permission is missing. *)
Record Platform : Type := mkPlatform {
  dataPath : string;
  createDefaultSource : option QGeoPositionInfoSource
}.

(** ** The controller *)

Record LocationController : Type := mkLocationController {
  m_enabled : bool;
  m_simulated : bool;
  m_lastViewHeading : float;
  m_lastKnownHeading : float;
  m_gpxFilePath : QUrl;
  m_simulator : option GPXLocationSimulator;
  m_positionSource : option QGeoPositionInfoSource;
  m_compass : option QCompass;
  m_locationOverlay : option GraphicsOverlay
}.

Definition set_m_enabled (v : bool) (c : LocationController) : LocationController :=
  {| m_enabled := v;
     m_simulated := m_simulated c;
     m_lastViewHeading := m_lastViewHeading c;
     m_lastKnownHeading := m_lastKnownHeading c;
     m_gpxFilePath := m_gpxFilePath c;
     m_simulator := m_simulator c;
     m_positionSource := m_positionSource c;
     m_compass := m_compass c;
     m_locationOverlay := m_locationOverlay c |}.

Definition set_m_simulated (v : bool) (c : LocationController) : LocationController :=
  {| m_enabled := m_enabled c;
     m_simulated := v;
     m_lastViewHeading := m_lastViewHeading c;
     m_lastKnownHeading := m_lastKnownHeading c;
     m_gpxFilePath := m_gpxFilePath c;
     m_simulator := m_simulator c;
     m_positionSource := m_positionSource c;
     m_compass := m_compass c;
     m_locationOverlay := m_locationOverlay c |}.

Definition set_m_lastViewHeading (v : float) (c : LocationController) : LocationController :=
  {| m_enabled := m_enabled c;
     m_simulated := m_simulated c;
     m_lastViewHeading := v;
     m_lastKnownHeading := m_lastKnownHeading c;
     m_gpxFilePath := m_gpxFilePath c;
     m_simulator := m_simulator c;
     m_positionSource := m_positionSource c;
     m_compass := m_compass c;
     m_locationOverlay := m_locationOverlay c |}.

Definition set_m_lastKnownHeading (v : float) (c : LocationController) : LocationController :=
  {| m_enabled := m_enabled c;
     m_simulated := m_simulated c;
     m_lastViewHeading := m_lastViewHeading c;
     m_lastKnownHeading := v;
     m_gpxFilePath := m_gpxFilePath c;
     m_simulator := m_simulator c;
     m_positionSource := m_positionSource c;
     m_compass := m_compass c;
     m_locationOverlay := m_locationOverlay c |}.

Definition set_m_gpxFilePath (v : QUrl) (c : LocationController) : LocationController :=
  {| m_enabled := m_enabled c;
     m_simulated := m_simulated c;
     m_lastViewHeading := m_lastViewHeading c;
     m_lastKnownHeading := m_lastKnownHeading c;
     m_gpxFilePath := v;
     m_simulator := m_simulator c;
     m_positionSource := m_positionSource c;
     m_compass := m_compass c;
     m_locationOverlay := m_locationOverlay c |}.

Definition set_m_simulator (v : option GPXLocationSimulator) (c : LocationController)
  : LocationController :=
  {| m_enabled := m_enabled c;
     m_simulated := m_simulated c;
     m_lastViewHeading := m_lastViewHeading c;
     m_lastKnownHeading := m_lastKnownHeading c;
     m_gpxFilePath := m_gpxFilePath c;
     m_simulator := v;
     m_positionSource := m_positionSource c;
     m_compass := m_compass c;
     m_locationOverlay := m_locationOverlay c |}.

Definition set_m_positionSource (v : option QGeoPositionInfoSource) (c : LocationController)
  : LocationController :=
  {| m_enabled := m_enabled c;
     m_simulated := m_simulated c;
     m_lastViewHeading := m_lastViewHeading c;
     m_lastKnownHeading := m_lastKnownHeading c;
     m_gpxFilePath := m_gpxFilePath c;
     m_simulator := m_simulator c;
     m_positionSource := v;
     m_compass := m_compass c;
     m_locationOverlay := m_locationOverlay c |}.

Definition set_m_compass (v : option QCompass) (c : LocationController)
  : LocationController :=
  {| m_enabled := m_enabled c;
     m_simulated := m_simulated c;
     m_lastViewHeading := m_lastViewHeading c;
     m_lastKnownHeading := m_lastKnownHeading c;
     m_gpxFilePath := m_gpxFilePath c;
     m_simulator := m_simulator c;
     m_positionSource := m_positionSource c;
     m_compass := v;
     m_locationOverlay := m_locationOverlay c |}.

Definition set_m_locationOverlay (v : option GraphicsOverlay) (c : LocationController)
  : LocationController :=
  {| m_enabled := m_enabled c;
     m_simulated := m_simulated c;
     m_lastViewHeading := m_lastViewHeading c;
     m_lastKnownHeading := m_lastKnownHeading c;
     m_gpxFilePath := m_gpxFilePath c;
     m_simulator := m_simulator c;
     m_positionSource := m_positionSource c;
     m_compass := m_compass c;
     m_locationOverlay := v |}.

(** The signals of [LocationController], with their arguments. *)
Inductive Signal : Type :=
| positionChanged (newPosition : Point)
| headingChanged (newHeading : float)
| relativeHeadingChanged (newHeading : float)
| enabledChanged
| simulatedChanged
| gpxFilePathChanged.

(** ** The monad of member functions *)

Inductive Outcome (A : Type) : Type :=
| Returned (a : A) (c : LocationController) (emitted : list Signal)
| NullDereference
| OutOfFuel.

Arguments Returned {A} a c emitted.
Arguments NullDereference {A}.
Arguments OutOfFuel {A}.

Definition M (A : Type) : Type := LocationController -> Outcome A.

Definition ret {A : Type} (a : A) : M A :=
  fun c => Returned a c [].

Definition bind {A B : Type} (m : M A) (k : A -> M B) : M B :=
  fun c =>
    match m c with
    | Returned a c1 e1 =>
        match k a c1 with
        | Returned b c2 e2 => Returned b c2 (e1 ++ e2)
        | NullDereference => NullDereference
        | OutOfFuel => OutOfFuel
        end
    | NullDereference => NullDereference
    | OutOfFuel => OutOfFuel
    end.

Declare Scope member_scope.
Delimit Scope member_scope with member.
Notation "x <- m ;; k" := (bind m (fun x => k))
  (at level 61, m at next level, right associativity) : member_scope.
Notation "m ;; k" := (bind m (fun _ => k))
  (at level 61, right associativity) : member_scope.
Local Open Scope member_scope.

(** Reading a member. *)
Definition gets {A : Type} (f : LocationController -> A) : M A :=
  fun c => Returned (f c) c [].

(** Assigning to a member. *)
Definition modify (f : LocationController -> LocationController) : M unit :=
  fun c => Returned tt (f c) [].

(** [emit sig]. *)
Definition emit (sig : Signal) : M unit :=
  fun c => Returned tt c [sig].

(** [ptr->...]: the object a pointer member points to; a call through
    [nullptr] ends the run. *)
Definition deref {A : Type} (f : LocationController -> option A) : M A :=
  fun c =>
    match f c with
    | Some obj => Returned obj c []
    | None => NullDereference
    end.

Definition isNull {A : Type} (p : option A) : bool :=
  match p with
  | Some _ => false
  | None => true
  end.

(** ** Member functions of [LocationController] *)

Section Controller.

Variable platform : Platform.

(** [DsaUtility::dataPath() + "/MontereyMounted.gpx"], as a URL. *)
Definition defaultGpxFilePath : QUrl :=
  fromLocalFile (dataPath platform ++ "/MontereyMounted.gpx").

(** [setGpxFilePath], with the call of [initPositionInfoSource(true)] it
    makes left open: the two member functions call each other. *)
Definition setGpxFilePath_with (init : M unit) (gpxFilePath : QUrl) : M unit :=
  current <- gets m_gpxFilePath ;;
  if String.eqb current gpxFilePath then ret tt
  else
    init ;;
    sim <- deref m_simulator ;;
    modify (set_m_simulator (Some (setGpxFile (toLocalFile gpxFilePath) sim))) ;;
    modify (set_m_gpxFilePath gpxFilePath) ;;
    emit gpxFilePathChanged.

(** [initPositionInfoSource].  The [connect] calls install the handlers
    [onPositionUpdateAvailable], [onPositionUpdated] and
    [onReadingChanged] below; [connect] on a null sender only warns.
    The recursion through [setGpxFilePath] is bounded by [fuel]. *)
Fixpoint initPositionInfoSource_fuel (fuel : nat) (simulated : bool) : M unit :=
  match fuel with
  | O => fun _ => OutOfFuel
  | S fuel' =>
      sim <- gets m_simulator ;;
      src <- gets m_positionSource ;;
      if simulated && isNull sim then
        modify (set_m_simulator (Some new_GPXLocationSimulator)) ;;
        setGpxFilePath_with (initPositionInfoSource_fuel fuel' true) defaultGpxFilePath
      else if negb simulated && isNull src then
        modify (set_m_positionSource (createDefaultSource platform)) ;;
        modify (set_m_compass (Some new_QCompass))
      else ret tt
  end.

(** Two levels are all the code ever uses: the inner call finds
    [m_simulator] set and returns (see [initPositionInfoSource_fuel_enough]). *)
Definition initPositionInfoSource (simulated : bool) : M unit :=
  initPositionInfoSource_fuel 2 simulated.

Definition setGpxFilePath (gpxFilePath : QUrl) : M unit :=
  setGpxFilePath_with (initPositionInfoSource true) gpxFilePath.

Definition enabled : M bool := gets m_enabled.

Definition setEnabled (enabled : bool) : M unit :=
  current <- gets m_enabled ;;
  if Bool.eqb current enabled then ret tt
  else
    simulated <- gets m_simulated ;;
    initPositionInfoSource simulated ;;
    modify (fun c => set_m_locationOverlay
                       (option_map (setVisible enabled) (m_locationOverlay c)) c) ;;
    (if simulated then
       sim <- deref m_simulator ;;
       if enabled
       then modify (set_m_simulator (Some (sim_startUpdates sim)))
       else modify (set_m_simulator (Some (sim_stopUpdates sim)))
     else
       if enabled then
         src <- deref m_positionSource ;;
         modify (set_m_positionSource (Some (source_startUpdates src))) ;;
         compass <- deref m_compass ;;
         modify (set_m_compass (Some (compass_start compass)))
       else
         src <- deref m_positionSource ;;
         modify (set_m_positionSource (Some (source_stopUpdates src))) ;;
         compass <- deref m_compass ;;
         modify (set_m_compass (Some (compass_stop compass)))) ;;
    modify (set_m_enabled enabled) ;;
    emit enabledChanged.

Definition simulated : M bool := gets m_simulated.

Definition setSimulated (simulated : bool) : M unit :=
  current <- gets m_simulated ;;
  if Bool.eqb current simulated then ret tt
  else
    (if simulated then initPositionInfoSource simulated else ret tt) ;;
    modify (set_m_simulated simulated) ;;
    emit simulatedChanged.

Definition gpxFilePath : M QUrl := gets m_gpxFilePath.

End Controller.

(** ** The handlers installed by [connect] *)

(** [GPXLocationSimulator::positionUpdateAvailable(pos, heading)]. *)
Definition onPositionUpdateAvailable (pos : Point) (heading : float) : M unit :=
  modify (set_m_lastKnownHeading heading) ;;
  emit (positionChanged pos) ;;
  emit (headingChanged heading) ;;
  lastViewHeading <- gets m_lastViewHeading ;;
  emit (relativeHeadingChanged (heading - lastViewHeading)%float).

(** [QGeoPositionInfoSource::positionUpdated(update)]. *)
Definition onPositionUpdated (update : QGeoPositionInfo) : M unit :=
  if negb (info_isValid update) then ret tt
  else
    let pos := coordinate update in
    if negb (coordinate_isValid pos) then ret tt
    else
      match coordinate_type pos with
      | Coordinate2D =>
          emit (positionChanged (mkPoint (longitude pos) (latitude pos) None wgs84))
      | Coordinate3D =>
          emit (positionChanged
                  (mkPoint (longitude pos) (latitude pos) (Some (altitude pos)) wgs84))
      | InvalidCoordinate => ret tt
      end.

(** [QCompass::readingChanged()].  [reading] is what [m_compass->reading()]
    returns when the handler runs: a null pointer when the sensor has no
    reading.  [static_cast<double>] of a [qreal] is the identity. *)
Definition onReadingChanged (reading : option QCompassReading) : M unit :=
  match reading with
  | None => ret tt
  | Some r => emit (headingChanged (azimuth r))
  end.

(** The threshold [0.1], as the binary64 value the C++ literal denotes. *)
Definition viewHeadingThreshold : float := 0x1.999999999999ap-4%float.

(** [SceneQuickView::viewpointChanged()], connected by
    [setRelativeHeadingSceneView].  [sceneViewHeading] is
    [sceneView->currentViewpointCamera().heading()] when the handler runs. *)
Definition onViewpointChanged (sceneViewHeading : float) : M unit :=
  lastViewHeading <- gets m_lastViewHeading ;;
  if PrimFloat.ltb (PrimFloat.abs (lastViewHeading - sceneViewHeading)%float)
                   viewHeadingThreshold
  then ret tt
  else
    modify (set_m_lastViewHeading sceneViewHeading) ;;
    isEnabled <- gets m_enabled ;;
    if negb isEnabled then
      lastKnownHeading <- gets m_lastKnownHeading ;;
      lastView <- gets m_lastViewHeading ;;
      emit (relativeHeadingChanged (lastKnownHeading + lastView)%float)
    else ret tt.

(** ** Everything that can happen to a controller *)

(** The public setters, and the four signals the controller listens to. *)
Inductive Call : Type :=
| CallSetEnabled (enabled : bool)
| CallSetSimulated (simulated : bool)
| CallSetGpxFilePath (gpxFilePath : QUrl)
| PositionUpdateAvailable (pos : Point) (heading : float)
| PositionUpdated (update : QGeoPositionInfo)
| ReadingChanged (reading : option QCompassReading)
| ViewpointChanged (sceneViewHeading : float).

Definition run (platform : Platform) (call : Call) : M unit :=
  match call with
  | CallSetEnabled e => setEnabled platform e
  | CallSetSimulated b => setSimulated platform b
  | CallSetGpxFilePath p => setGpxFilePath platform p
  | PositionUpdateAvailable pos heading => onPositionUpdateAvailable pos heading
  | PositionUpdated update => onPositionUpdated update
  | ReadingChanged reading => onReadingChanged reading
  | ViewpointChanged h => onViewpointChanged h
  end.

(** A sequence of calls, one after the other. *)
Fixpoint runAll (platform : Platform) (calls : list Call) : M unit :=
  match calls with
  | [] => ret tt
  | call :: rest => run platform call ;; runAll platform rest
  end.

(** ** Observations used in the statements *)

(** The track-log player is started. *)
Definition simulatorStarted (c : LocationController) : bool :=
  match m_simulator c with
  | Some sim => sim_started sim
  | None => false
  end.

(** The live producer is started: the position source delivers updates or
    the compass is active. *)
Definition liveStarted (c : LocationController) : bool :=
  match m_positionSource c with
  | Some src => source_updating src
  | None => false
  end
  ||
  match m_compass c with
  | Some compass => compass_active compass
  | None => false
  end.

Definition isRelativeHeadingChanged (sig : Signal) : bool :=
  match sig with
  | relativeHeadingChanged _ => true
  | _ => false
  end.

(** A position or heading update, as opposed to a property notification. *)
Definition isUpdate (sig : Signal) : bool :=
  match sig with
  | positionChanged _ | headingChanged _ | relativeHeadingChanged _ => true
  | enabledChanged | simulatedChanged | gpxFilePathChanged => false
  end.

(** The canonical range of a heading, [0 <= h < 360]. *)
Definition inCanonicalRange (h : float) : bool :=
  PrimFloat.leb 0%float h && PrimFloat.ltb h 360%float.

(** The only way a caller of the [void] function [setSimulated] can see a
    mode switch fail: the call returns, the [simulated] property is what it
    was and [simulatedChanged] was not emitted. *)
Definition modeSwitchFailed (before : LocationController) (o : Outcome unit) : Prop :=
  match o with
  | Returned _ after emitted =>
      m_simulated after = m_simulated before /\ ~ In simulatedChanged emitted
  | NullDereference | OutOfFuel => False
  end.

(** The change of the viewer heading is below the threshold: the test
    [std::abs(m_lastViewHeading - sceneViewHeading) < 0.1] of the code. *)
Definition belowThreshold (lastViewHeading sceneViewHeading : float) : bool :=
  PrimFloat.ltb (PrimFloat.abs (lastViewHeading - sceneViewHeading)%float)
                viewHeadingThreshold.

Definition republishes (emitted : list Signal) : bool :=
  existsb isRelativeHeadingChanged emitted.

(** The position built from a fix: longitude and latitude, and the altitude
    exactly for a 3-D fix, in WGS 84. *)
Definition positionOfFix (pos : QGeoCoordinate) : Point :=
  mkPoint (longitude pos) (latitude pos)
    (match coordinate_type pos with
     | Coordinate3D => Some (altitude pos)
     | _ => None
     end)
    wgs84.

(** No position or heading update among the signals emitted. *)
Definition noUpdates (emitted : list Signal) : bool :=
  forallb (fun sig => negb (isUpdate sig)) emitted.

(** Not both producers are started. *)
Definition atMostOneStarted (c : LocationController) : bool :=
  negb (simulatorStarted c && liveStarted c).

(** ** The members of [LocationBroadcast] *)

Module LocationBroadcast.

Inductive MessageSender : Type := mkMessageSender.
Inductive QTimer : Type := mkQTimer.

(** The data members declared in LocationBroadcast.h.  [m_location] is
    [None] for the empty, default-constructed [Point].  [m_message] (the
    type [Message] is declared elsewhere) and the connection handle
    [m_locationChangedConn] are left out. *)
Record members : Type := mkMembers {
  m_enabled : bool;
  m_location : option Point;
  m_useCurrentLocation : bool;
  m_messageType : string;
  m_udpPort : Z;
  m_frequency : Z;
  m_messageSender : option MessageSender;
  m_timer : option QTimer
}.

(** The default member initialisers of the class, which every constructor
    applies to the members it does not initialise itself.  The constructor
    bodies are in LocationBroadcast.cpp, which is not among the sources. *)
Definition defaultMembers : members :=
  {| m_enabled := true;
     m_location := None;
     m_useCurrentLocation := true;
     m_messageType := "";
     m_udpPort := (-1)%Z;
     m_frequency := 3000%Z;
     m_messageSender := None;
     m_timer := None |}.


(** Modelled from the spec: the type [Message] is declared in Message.h,
    which is not among the sources.  A published message carries the
    message-type tag and the position. *)
Record Message : Type := mkMessage {
  message_type : string;
  message_position : Point
}.

(** Modelled from the spec: the constructors are defined in
    LocationBroadcast.cpp, which is not among the sources.  The initial
    state of the publisher is Disabled, it tracks the current location,
    its interval is 3000 ms, and it owns its timer and its sender.  The
    declaration has the default member initialiser [m_enabled = true]
    (see [defaultMembers]): the initial state of the spec is one the
    constructor has to establish itself, which is what is modelled. *)
Definition construct (messageType : string) (udpPort : Z) : members :=
  {| m_enabled := false;
     m_location := m_location defaultMembers;
     m_useCurrentLocation := m_useCurrentLocation defaultMembers;
     m_messageType := messageType;
     m_udpPort := udpPort;
     m_frequency := m_frequency defaultMembers;
     m_messageSender := Some mkMessageSender;
     m_timer := Some mkQTimer |}.

(** Modelled from the spec: [LocationBroadcast(QObject* parent)], the
    constructor without a message type and a port, which keeps the
    defaults of the declaration for the two. *)
Definition constructDefault : members :=
  construct (m_messageType defaultMembers) (m_udpPort defaultMembers).

(** Modelled from the spec: the bodies of the setters are in
    LocationBroadcast.cpp.  Each stores its argument; [setEnabled] drives
    the transition between Disabled and Enabled. *)
Definition setEnabled (enabled : bool) (b : members) : members :=
  {| m_enabled := enabled;
     m_location := m_location b;
     m_useCurrentLocation := m_useCurrentLocation b;
     m_messageType := m_messageType b;
     m_udpPort := m_udpPort b;
     m_frequency := m_frequency b;
     m_messageSender := m_messageSender b;
     m_timer := m_timer b |}.

(** Modelled from the spec: see [setEnabled]. *)
Definition setLocation (location : Point) (b : members) : members :=
  {| m_enabled := m_enabled b;
     m_location := Some location;
     m_useCurrentLocation := m_useCurrentLocation b;
     m_messageType := m_messageType b;
     m_udpPort := m_udpPort b;
     m_frequency := m_frequency b;
     m_messageSender := m_messageSender b;
     m_timer := m_timer b |}.

(** Modelled from the spec: see [setEnabled]. *)
Definition setUseCurrentLocation (useCurrentLocation : bool) (b : members) : members :=
  {| m_enabled := m_enabled b;
     m_location := m_location b;
     m_useCurrentLocation := useCurrentLocation;
     m_messageType := m_messageType b;
     m_udpPort := m_udpPort b;
     m_frequency := m_frequency b;
     m_messageSender := m_messageSender b;
     m_timer := m_timer b |}.

(** Modelled from the spec: see [setEnabled]. *)
Definition setMessageType (messageType : string) (b : members) : members :=
  {| m_enabled := m_enabled b;
     m_location := m_location b;
     m_useCurrentLocation := m_useCurrentLocation b;
     m_messageType := messageType;
     m_udpPort := m_udpPort b;
     m_frequency := m_frequency b;
     m_messageSender := m_messageSender b;
     m_timer := m_timer b |}.

(** Modelled from the spec: see [setEnabled]. *)
Definition setUdpPort (port : Z) (b : members) : members :=
  {| m_enabled := m_enabled b;
     m_location := m_location b;
     m_useCurrentLocation := m_useCurrentLocation b;
     m_messageType := m_messageType b;
     m_udpPort := port;
     m_frequency := m_frequency b;
     m_messageSender := m_messageSender b;
     m_timer := m_timer b |}.

(** Modelled from the spec: see [setEnabled]. *)
Definition setFrequency (frequency : Z) (b : members) : members :=
  {| m_enabled := m_enabled b;
     m_location := m_location b;
     m_useCurrentLocation := m_useCurrentLocation b;
     m_messageType := m_messageType b;
     m_udpPort := m_udpPort b;
     m_frequency := frequency;
     m_messageSender := m_messageSender b;
     m_timer := m_timer b |}.

(** Modelled from the spec: [broadcastLocation], the body of which is in
    LocationBroadcast.cpp, is the tick of the timer.  Disabled, it does
    nothing.  Otherwise the position to use is the manual one or, when the
    publisher tracks the current location, the last position of the source
    ([currentLocation], [None] before the first one); without a position
    the tick is skipped, with one a message is sent.  The result is the
    list of the messages sent. *)
Definition broadcastLocation (currentLocation : option Point) (b : members)
  : list Message :=
  if m_enabled b then
    match (if m_useCurrentLocation b then currentLocation else m_location b) with
    | Some position => [mkMessage (m_messageType b) position]
    | None => []
    end
  else [].

(** What can happen to a publisher: a call of a setter, or a tick. *)
Inductive Op : Type :=
| SetEnabled (enabled : bool)
| SetLocation (location : Point)
| SetUseCurrentLocation (useCurrentLocation : bool)
| SetMessageType (messageType : string)
| SetUdpPort (port : Z)
| SetFrequency (frequency : Z)
| Tick (currentLocation : option Point).

(** The publisher after an operation, and the messages sent by it. *)
Definition step (op : Op) (b : members) : members * list Message :=
  match op with
  | SetEnabled enabled => (setEnabled enabled b, [])
  | SetLocation location => (setLocation location b, [])
  | SetUseCurrentLocation u => (setUseCurrentLocation u b, [])
  | SetMessageType messageType => (setMessageType messageType b, [])
  | SetUdpPort port => (setUdpPort port b, [])
  | SetFrequency frequency => (setFrequency frequency b, [])
  | Tick currentLocation => (b, broadcastLocation currentLocation b)
  end.

Fixpoint steps (ops : list Op) (b : members) : members * list Message :=
  match ops with
  | [] => (b, [])
  | op :: rest =>
      let (b1, sent1) := step op b in
      let (b2, sent2) := steps rest b1 in
      (b2, sent1 ++ sent2)
  end.


End LocationBroadcast.

(** ** Concrete platforms and controllers *)

(** A device with a position source. *)
Definition devicePlatform : Platform :=
  {| dataPath := "/data";
     createDefaultSource := Some {| source_updating := false |} |}.

(** A device without positioning hardware or without the permission. *)
Definition noSourcePlatform : Platform :=
  {| dataPath := "/data"; createDefaultSource := None |}.

(** A controller in Live mode on which nothing was initialised yet: updates
    disabled, no track log set, no producer constructed. *)
Definition idleController : LocationController :=
  {| m_enabled := false;
     m_simulated := false;
     m_lastViewHeading := 0%float;
     m_lastKnownHeading := 0%float;
     m_gpxFilePath := "";
     m_simulator := None;
     m_positionSource := None;
     m_compass := None;
     m_locationOverlay := None |}.

Definition montereyPoint : Point :=
  mkPoint (-122)%float 36.5%float None wgs84.

(** Two fixes of the position source. *)
Definition fix3D : QGeoPositionInfo :=
  {| info_isValid := true;
     coordinate := {| coordinate_isValid := true;
                      coordinate_type := Coordinate3D;
                      longitude := (-122)%float;
                      latitude := 36.5%float;
                      altitude := 15%float |} |}.

Definition fixInvalid : QGeoPositionInfo :=
  {| info_isValid := true;
     coordinate := {| coordinate_isValid := false;
                      coordinate_type := InvalidCoordinate;
                      longitude := nan;
                      latitude := nan;
                      altitude := nan |} |}.

(** ** Traces, and what stays true along them *)

(** A controller reached from another one by calls that return, each call
    allowed in the state it is made in. *)
Inductive steps (platform : Platform) (allowed : LocationController -> Call -> Prop)
  : LocationController -> LocationController -> Prop :=
| steps_done (c : LocationController) : steps platform allowed c c
| steps_call (c c1 c2 : LocationController) (call : Call) (emitted : list Signal) :
    allowed c call ->
    run platform call c = Returned tt c1 emitted ->
    steps platform allowed c1 c2 ->
    steps platform allowed c c2.

(** Every call is allowed. *)
Definition anyCall (_ : LocationController) (_ : Call) : Prop := True.

(** The call changes the mode while updates are enabled. *)
Definition switchesWhileEnabled (c : LocationController) (call : Call) : bool :=
  match call with
  | CallSetSimulated b => m_enabled c && negb (Bool.eqb (m_simulated c) b)
  | _ => false
  end.

(** The discipline under which the producers exclude each other: the mode
    is changed only while updates are disabled. *)
Definition disciplined (c : LocationController) (call : Call) : Prop :=
  switchesWhileEnabled c call = false.

(** The file the player was last pointed to is the one the controller
    reports, and a track log is only ever stored together with a player. *)
Definition pathConsistent (c : LocationController) : Prop :=
  match m_simulator c with
  | Some sim => sim_gpxFile sim = toLocalFile (m_gpxFilePath c)
  | None => m_gpxFilePath c = ""
  end.

(** The producer of the other mode is not started, and no producer is
    started while updates are disabled. *)
Definition exclusive (c : LocationController) : Prop :=
  if m_enabled c
  then (if m_simulated c then liveStarted c = false else simulatorStarted c = false)
  else simulatorStarted c = false /\ liveStarted c = false.


Definition isGpxFilePathChanged (sig : Signal) : bool :=
  match sig with
  | gpxFilePathChanged => true
  | _ => false
  end.

Definition countGpxFilePathChanged (emitted : list Signal) : nat :=
  List.length (filter isGpxFilePathChanged emitted).

(** ** The overlay and its marker *)

(** C++ [float] is IEEE 754 binary32: a [spec_float] computed with 24 bits
    of precision and the exponent bound 128. *)
Definition binary32 : Type := spec_float.
Definition float32_mul (x y : binary32) : binary32 := SFmul 24 128 x y.
Definition float32_ltb (x y : binary32) : bool := SFltb x y.
(** [static_cast<float>] of a [double]: rounding to the nearest binary32. *)
Definition float32_of_double (d : float) : binary32 :=
  match Prim2SF d with
  | S754_finite s m e => binary_normalize 24 128 (if s then Zneg m else Zpos m) e s
  | x => x
  end.

(** The constants of [initOverlay]; [rangeMultiplier] is the binary64 value
    the literal [1.04] denotes. *)
Definition symbolSize : binary32 := float32_of_double 45%float.
Definition rangeMultiplier : float := 0x1.0a3d70a3d70a4p+0%float.
Definition maxRange : float := 10000000%float.

(** [DistanceSymbolRange(symbol, minDistance, maxDistance)]; of the model
    symbol the size is kept, which [initOverlay] sets as width and depth. *)
Record DistanceSymbolRange : Type := mkDistanceSymbolRange {
  range_symbolSize : binary32;
  range_minDistance : float;
  range_maxDistance : float
}.

(** The loop [for (double i = 1000.0; i < maxRange; i *= rangeMultiplier)]
    of [initOverlay], from the loop state [i], [rangeSize]: the ranges it
    appends, or [None] when [fuel] iterations do not reach the end. *)
Fixpoint initOverlay_loop (fuel : nat) (i : float) (rangeSize : binary32)
  : option (list DistanceSymbolRange) :=
  if PrimFloat.ltb i maxRange then
    match fuel with
    | O => None
    | S fuel' =>
        let rangeSize' := float32_mul rangeSize (float32_of_double rangeMultiplier) in
        let range :=
          if PrimFloat.leb maxRange (i * rangeMultiplier)%float
          then mkDistanceSymbolRange rangeSize' i 0%float
          else mkDistanceSymbolRange rangeSize' i (i * rangeMultiplier)%float in
        option_map (cons range)
          (initOverlay_loop fuel' (i * rangeMultiplier)%float rangeSize')
    end
  else Some [].

(** All ranges [initOverlay] appends to the composite symbol: the range of
    the first symbol, then those of the loop. *)
Definition initOverlay_ranges (fuel : nat) : option (list DistanceSymbolRange) :=
  option_map (cons (mkDistanceSymbolRange symbolSize 0%float 1000%float))
    (initOverlay_loop fuel 1000%float symbolSize).

(** Each range ends where the next one begins. *)
Fixpoint contiguous (l : list DistanceSymbolRange) : Prop :=
  match l with
  | r :: ((next :: _) as rest) =>
      range_maxDistance r = range_minDistance next /\ contiguous rest
  | _ => True
  end.

(** Each symbol is larger than the one before. *)
Fixpoint growing (l : list DistanceSymbolRange) : bool :=
  match l with
  | r :: ((next :: _) as rest) =>
      float32_ltb (range_symbolSize r) (range_symbolSize next) && growing rest
  | _ => true
  end.


(** The last range has the maximum 0. *)
Fixpoint lastUnbounded (l : list DistanceSymbolRange) : Prop :=
  match l with
  | [] => True
  | [r] => range_maxDistance r = 0%float
  | _ :: rest => lastUnbounded rest
  end.

(** No bound of a range is NaN. *)
Definition boundsAreNumbers (l : list DistanceSymbolRange) : bool :=
  forallb (fun r => negb (is_nan (range_minDistance r))
                    && negb (is_nan (range_maxDistance r))) l.

(** [d] lies in the range: at or above the minimum, and at or below the
    maximum unless the maximum is 0, which stands for no maximum. *)
Definition inRange (d : float) (r : DistanceSymbolRange) : Prop :=
  PrimFloat.leb (range_minDistance r) d = true
  /\ (PrimFloat.leb d (range_maxDistance r) = true
      \/ range_maxDistance r = 0%float).


(** [Point(x, y, z)], the geometry given to the marker: no spatial
    reference. *)
Record MarkerPoint : Type := mkMarkerPoint {
  marker_x : float;
  marker_y : float;
  marker_z : float
}.

(** [m_positionGraphic]: its geometry, empty until the first position, and
    its attribute ["heading"]. *)
Record Graphic : Type := mkGraphic {
  graphic_geometry : option MarkerPoint;
  graphic_heading : float
}.

(** The graphic as [initOverlay] creates it: no geometry, heading 0.0. *)
Definition new_positionGraphic : Graphic :=
  {| graphic_geometry := None; graphic_heading := 0%float |}.

(** The slot [initOverlay] connects to [positionChanged]. *)
Definition onPositionChanged (newPosition : Point) (g : Graphic) : Graphic :=
  {| graphic_geometry :=
       Some (mkMarkerPoint (point_x newPosition) (point_y newPosition) 10%float);
     graphic_heading := graphic_heading g |}.

(** The slot [initOverlay] connects to [headingChanged]. *)
Definition onHeadingChanged (newHeading : float) (g : Graphic) : Graphic :=
  {| graphic_geometry := graphic_geometry g; graphic_heading := newHeading |}.

(** An emitted signal reaches the slots connected to it. *)
Definition deliver (g : Graphic) (sig : Signal) : Graphic :=
  match sig with
  | positionChanged newPosition => onPositionChanged newPosition g
  | headingChanged newHeading => onHeadingChanged newHeading g
  | _ => g
  end.

Definition deliverAll (emitted : list Signal) (g : Graphic) : Graphic :=
  fold_left deliver emitted g.

(** The update passes the three tests of the position handler. *)
Definition usableFix (update : QGeoPositionInfo) : bool :=
  info_isValid update
  && coordinate_isValid (coordinate update)
  && match coordinate_type (coordinate update) with
     | InvalidCoordinate => false
     | _ => true
     end.

(** The marker after a call, from the marker before it. *)
Definition markerAfter (call : Call) (g : Graphic) : Graphic :=
  match call with
  | PositionUpdateAvailable pos heading =>
      {| graphic_geometry := Some (mkMarkerPoint (point_x pos) (point_y pos) 10%float);
         graphic_heading := heading |}
  | PositionUpdated update =>
      if usableFix update
      then {| graphic_geometry :=
                Some (mkMarkerPoint (longitude (coordinate update))
                        (latitude (coordinate update)) 10%float);
              graphic_heading := graphic_heading g |}
      else g
  | ReadingChanged (Some r) =>
      {| graphic_geometry := graphic_geometry g; graphic_heading := azimuth r |}
  | _ => g
  end.

(** What [initOverlay] does to the controller: [m_locationOverlay] becomes
    the overlay just constructed.  [newOverlay] is that overlay, with the
    visibility the runtime gives a new overlay. *)
Definition initOverlay (newOverlay : GraphicsOverlay) : M unit :=
  modify (set_m_locationOverlay (Some newOverlay)).

Definition locationOverlay (newOverlay : GraphicsOverlay) : M GraphicsOverlay :=
  (overlay <- gets m_locationOverlay ;;
   (if isNull overlay then initOverlay newOverlay else ret tt) ;;
   deref m_locationOverlay)%member.

(** ** [GraphicsOverlaysResultsManager] *)

Module GraphicsOverlaysResultsManager.

(** An [IdentifyGraphicsOverlayResult*]: [None] is [nullptr]. *)
Definition pointer : Type := option nat.

(** The objects that are alive. *)
Definition Heap : Type := nat -> bool.

(** [delete p]: nothing for a null pointer, the end of the object for a
    live one; on an object that is not alive the behaviour is undefined
    ([None]). *)
Definition delete (p : pointer) (h : Heap) : option Heap :=
  match p with
  | None => Some h
  | Some a =>
      if h a then Some (fun x => if Nat.eqb x a then false else h x)
      else None
  end.

(** Qt's [qDeleteAll]: [delete] on every item, first to last. *)
Fixpoint qDeleteAll (items : list pointer) (h : Heap) : option Heap :=
  match items with
  | [] => Some h
  | p :: rest =>
      match delete p h with
      | Some h' => qDeleteAll rest h'
      | None => None
      end
  end.

Record members : Type := mkMembers {
  m_results : list pointer
}.

(** The constructor keeps the list it is given. *)
Definition construct (results : list pointer) : members :=
  {| m_results := results |}.

(** The destructor. *)
Definition destroy (m : members) (h : Heap) : option Heap :=
  qDeleteAll (m_results m) h.

(** The objects the non-null items of a list point to. *)
Fixpoint targets (items : list pointer) : list nat :=
  match items with
  | [] => []
  | Some a :: rest => a :: targets rest
  | None :: rest => targets rest
  end.

End GraphicsOverlaysResultsManager.

(** * Properties *)

(** ** Proof tools *)

(** Unfold the monad, so that a member function applied to a controller is
    a tree of tests on the members. *)
Ltac unfold_members :=
  unfold run, setEnabled, setSimulated, setGpxFilePath, initPositionInfoSource,
    onPositionUpdateAvailable, onPositionUpdated, onReadingChanged,
    onViewpointChanged, setGpxFilePath_with, initPositionInfoSource_fuel,
    setGpxFilePath_with, bind, ret, gets, modify, emit, deref in *.

(** Compare the track-log paths a run is stuck on, then read the result
    off the run. *)
Ltac read_run Hrun :=
  unfold_members; cbn in Hrun;
  repeat (match type of Hrun with
          | context [String.eqb ?a ?b] => destruct (String.eqb a b) eqn:?
          end; cbn in Hrun);
  try discriminate Hrun;
  inversion Hrun; subst; cbn; auto.

(** Compare the track-log paths the goal is stuck on, after unfolding
    the member functions in it. *)
Ltac compare_paths :=
  repeat (match goal with
          | |- context [String.eqb ?a ?b] => destruct (String.eqb a b) eqn:?
          end; cbn).

Ltac by_members :=
  unfold setEnabled, setSimulated, setGpxFilePath, initPositionInfoSource,
    setGpxFilePath_with, gpxFilePath, simulated, enabled,
    deref, modify, emit, ret, gets, bind; cbn;
  compare_paths.

(** ** The default track log *)

Lemma defaultGpxFilePath_not_empty (platform : Platform) :
  String.eqb "" (defaultGpxFilePath platform) = false.
Proof.
  unfold defaultGpxFilePath, fromLocalFile.
  destruct (dataPath platform); reflexivity.
Qed.

(** ** [initPositionInfoSource] returns, and two levels of fuel are enough *)

Lemma initPositionInfoSource_simulator_present
    (platform : Platform) (fuel : nat) (c : LocationController) (sim : GPXLocationSimulator) :
  m_simulator c = Some sim ->
  initPositionInfoSource_fuel platform (S fuel) true c = Returned tt c [].
Proof.
  intros Hsim. cbn. unfold bind, gets, ret. rewrite Hsim. reflexivity.
Qed.

Lemma initPositionInfoSource_fuel_enough
    (platform : Platform) (fuel : nat) (simulated : bool) (c : LocationController) :
  initPositionInfoSource_fuel platform (S (S fuel)) simulated c
  = initPositionInfoSource platform simulated c.
Proof.
  unfold initPositionInfoSource.
  destruct c as [en si lv lk path sim src compass overlay].
  destruct simulated, sim as [sim|], src as [src|]; cbn;
    unfold setGpxFilePath_with, bind, gets, ret, modify, emit, deref; cbn;
    try reflexivity;
    destruct (String.eqb path (defaultGpxFilePath platform)); reflexivity.
Qed.

Lemma initPositionInfoSource_returns
    (platform : Platform) (simulated : bool) (c : LocationController) :
  exists c' emitted,
    initPositionInfoSource platform simulated c = Returned tt c' emitted.
Proof.
  destruct c as [en si lv lk path sim src compass overlay].
  destruct simulated, sim as [sim|], src as [src|];
    unfold initPositionInfoSource; cbn;
    unfold setGpxFilePath_with, bind, gets, ret, modify, emit, deref; cbn;
    try (eexists; eexists; reflexivity);
    destruct (String.eqb path (defaultGpxFilePath platform));
    eexists; eexists; reflexivity.
Qed.

(** ** Relative heading *)

(** C1, as the code has it: on every update of the track-log player the
    relative heading emitted is the difference [heading - m_lastViewHeading]
    as the machine computes it, after [positionChanged] and
    [headingChanged]; nothing reduces it modulo 360. *)
Theorem relative_heading_on_simulator_update
    (pos : Point) (heading : float) (c : LocationController) :
  onPositionUpdateAvailable pos heading c
  = Returned tt (set_m_lastKnownHeading heading c)
      [positionChanged pos; headingChanged heading;
       relativeHeadingChanged (heading - m_lastViewHeading c)%float].
Proof. reflexivity. Qed.

(** C1 fails as stated: with the viewer at 20 degrees, a replayed heading of
    10 degrees is published as the relative heading -10, which is outside
    [0, 360). *)
Lemma relative_heading_leaves_canonical_range :
  onPositionUpdateAvailable montereyPoint 10%float
    (set_m_lastViewHeading 20%float idleController)
  = Returned tt
      (set_m_lastKnownHeading 10%float (set_m_lastViewHeading 20%float idleController))
      [positionChanged montereyPoint; headingChanged 10%float;
       relativeHeadingChanged (-10)%float]
  /\ inCanonicalRange (-10)%float = false.
Proof. split; reflexivity. Qed.

(** The viewer-side handler combines the same two members with [+]: with a
    last known heading of 90 degrees, turning the view to 30 degrees
    publishes 120. *)
Example onViewpointChanged_adds_view_heading :
  onViewpointChanged 30%float (set_m_lastKnownHeading 90%float idleController)
  = Returned tt
      (set_m_lastViewHeading 30%float (set_m_lastKnownHeading 90%float idleController))
      [relativeHeadingChanged 120%float].
Proof. reflexivity. Qed.

(** ** Viewer heading *)

(** C4, as the code has it: a change of the viewer heading always returns;
    the new heading is recorded exactly when the change is not below 0.1,
    and the relative heading is republished exactly when, in addition,
    updates are disabled. *)
Theorem onViewpointChanged_republishes_iff
    (sceneViewHeading : float) (c : LocationController) :
  exists c' emitted,
    onViewpointChanged sceneViewHeading c = Returned tt c' emitted
    /\ (republishes emitted = true <->
        belowThreshold (m_lastViewHeading c) sceneViewHeading = false
        /\ m_enabled c = false)
    /\ m_lastViewHeading c'
       = (if belowThreshold (m_lastViewHeading c) sceneViewHeading
          then m_lastViewHeading c else sceneViewHeading).
Proof.
  unfold onViewpointChanged, belowThreshold, bind, gets, modify, emit, ret.
  destruct (PrimFloat.ltb _ _) eqn:Hlt; cbn.
  - eexists; eexists; split; [reflexivity|]. cbn. split; [|reflexivity].
    split; [discriminate | intros [H _]; discriminate].
  - destruct (m_enabled c) eqn:Hen; cbn;
      (eexists; eexists; split; [reflexivity|]); cbn; (split; [|reflexivity]).
    + split; [discriminate | intros [_ H]; discriminate].
    + split; auto.
Qed.

(** C4 fails as stated: while updates are enabled, a turn of the view by 90
    degrees, far above the threshold, is recorded but nothing is
    republished. *)
Lemma viewpoint_change_not_republished_while_enabled :
  belowThreshold 0%float 90%float = false
  /\ onViewpointChanged 90%float (set_m_enabled true idleController)
     = Returned tt (set_m_lastViewHeading 90%float (set_m_enabled true idleController)) [].
Proof. split; reflexivity. Qed.

(** A change of exactly the threshold is accepted: the code drops changes
    below 0.1, not changes up to 0.1. *)
Example viewpoint_change_of_threshold_accepted :
  onViewpointChanged viewHeadingThreshold idleController
  = Returned tt (set_m_lastViewHeading viewHeadingThreshold idleController)
      [relativeHeadingChanged viewHeadingThreshold].
Proof. reflexivity. Qed.

(** ** Live updates *)

(** C7: an invalid update, an invalid coordinate or a coordinate of no type
    emits nothing and leaves the controller as it is; every other update
    emits the position built from the fix, and also leaves the controller
    as it is. *)
Theorem onPositionUpdated_spec (update : QGeoPositionInfo) (c : LocationController) :
  (info_isValid update = false
   \/ coordinate_isValid (coordinate update) = false
   \/ coordinate_type (coordinate update) = InvalidCoordinate ->
   onPositionUpdated update c = Returned tt c [])
  /\
  (info_isValid update = true ->
   coordinate_isValid (coordinate update) = true ->
   coordinate_type (coordinate update) <> InvalidCoordinate ->
   onPositionUpdated update c
   = Returned tt c [positionChanged (positionOfFix (coordinate update))]).
Proof.
  unfold onPositionUpdated, positionOfFix, emit, ret.
  destruct (info_isValid update), (coordinate_isValid (coordinate update)),
    (coordinate_type (coordinate update)); cbn; split;
    solve [ reflexivity | congruence | intros [H | [H | H]]; congruence ].
Qed.

Lemma onPositionUpdated_spec_witness :
  onPositionUpdated fixInvalid idleController = Returned tt idleController []
  /\ onPositionUpdated fix3D idleController
     = Returned tt idleController
         [positionChanged (mkPoint (-122)%float 36.5%float (Some 15%float) wgs84)].
Proof.
  split.
  - apply (proj1 (onPositionUpdated_spec fixInvalid idleController)).
    right; left; reflexivity.
  - apply (proj2 (onPositionUpdated_spec fix3D idleController));
      [reflexivity | reflexivity | discriminate].
Defined.

(** C8, as the code has it: a compass update without a reading emits
    nothing; one with a reading emits the azimuth of the reading as it is,
    so the heading emitted is finite exactly when that azimuth is; in both
    cases the controller, its last known heading included, is unchanged. *)
Theorem onReadingChanged_spec (reading : option QCompassReading) (c : LocationController) :
  exists emitted,
    onReadingChanged reading c = Returned tt c emitted
    /\ emitted = match reading with
                 | None => []
                 | Some r => [headingChanged (azimuth r)]
                 end.
Proof.
  destruct reading as [r|]; eexists; split; reflexivity.
Qed.

(** C8 fails as stated: nothing in the handler looks at the azimuth, and a
    reading whose azimuth is infinite is emitted as the heading. *)
Lemma compass_azimuth_emitted_unchecked :
  onReadingChanged (Some (mkQCompassReading infinity)) idleController
  = Returned tt idleController [headingChanged infinity]
  /\ is_finite infinity = false.
Proof. split; reflexivity. Qed.

(** C5: on a device without a position source, enabling the updates of a
    controller in Live mode calls [startUpdates] through the null pointer
    that [createDefaultSource] returned. *)
Theorem setEnabled_without_position_source :
  setEnabled noSourcePlatform true idleController = NullDereference.
Proof. reflexivity. Qed.

(** The same for every controller in Live mode without a position source,
    whatever else its state is. *)
Lemma setEnabled_null_position_source
    (platform : Platform) (enabled : bool) (c : LocationController) :
  createDefaultSource platform = None ->
  m_positionSource c = None ->
  m_simulated c = false ->
  m_enabled c = negb enabled ->
  setEnabled platform enabled c = NullDereference.
Proof.
  intros Hp Hsrc Hsim Hen.
  destruct c as [en si lv lk path sim src compass overlay]; cbn in *; subst.
  unfold setEnabled, initPositionInfoSource, bind, gets, ret, modify, emit, deref.
  destruct enabled; cbn; rewrite Hp; reflexivity.
Qed.

(** With a position source on the device, [setEnabled] returns on every
    controller whose compass was constructed together with its position
    source: the null position source is the only way to the dereference. *)
Lemma setEnabled_returns_with_source
    (platform : Platform) (enabled : bool) (c : LocationController) :
  isNull (createDefaultSource platform) = false ->
  (isNull (m_positionSource c) = false -> isNull (m_compass c) = false) ->
  exists c' emitted, setEnabled platform enabled c = Returned tt c' emitted.
Proof.
  intros Hsource Hcompass.
  destruct platform as [data [source|]]; [clear Hsource | discriminate].
  destruct c as [[|] [|] lv lk path [sim|] [src|] [compass|] overlay];
    cbn in Hcompass; try (specialize (Hcompass eq_refl); discriminate);
    destruct enabled;
    unfold setEnabled, initPositionInfoSource, setGpxFilePath_with, deref, modify,
      emit, ret, gets, bind; cbn;
    try destruct (String.eqb path _); cbn;
    do 2 eexists; reflexivity.
Qed.

(** ** The publisher *)

(** The default member initialiser of [m_enabled] in the declaration is
    [true]: the members as declared are not in the state Disabled, and the
    constructor modelled from the spec differs from them in this flag. *)
Lemma LocationBroadcast_default_enabled :
  LocationBroadcast.m_enabled LocationBroadcast.defaultMembers = true
  /\ LocationBroadcast.m_enabled LocationBroadcast.constructDefault = false.
Proof. split; reflexivity. Qed.





(** Once enabled, the publisher does send: the first tick with a position
    after [setEnabled(true)] carries the tag and that position. *)
Example enabled_publisher_sends :
  snd (LocationBroadcast.steps
         [LocationBroadcast.Tick (Some montereyPoint);
          LocationBroadcast.SetEnabled true;
          LocationBroadcast.Tick None;
          LocationBroadcast.Tick (Some montereyPoint)]
         (LocationBroadcast.construct "position_report" 45678%Z))
  = [LocationBroadcast.mkMessage "position_report" montereyPoint].
Proof. reflexivity. Qed.

(** ** The track log *)

(** C10: setting the path the controller already has returns at once, with
    the controller (the player included) as it was and nothing emitted;
    setting another path returns with a player constructed and pointed to
    the new file, in Live mode as well as in Simulated mode, and leaves the
    mode and the started state of the player alone. *)
Theorem setGpxFilePath_spec
    (platform : Platform) (gpxFilePath : QUrl) (c : LocationController) :
  (m_gpxFilePath c = gpxFilePath ->
   setGpxFilePath platform gpxFilePath c = Returned tt c [])
  /\
  (m_gpxFilePath c <> gpxFilePath ->
   exists c' emitted sim,
     setGpxFilePath platform gpxFilePath c = Returned tt c' emitted
     /\ m_simulator c' = Some sim
     /\ sim_gpxFile sim = toLocalFile gpxFilePath
     /\ sim_started sim = simulatorStarted c
     /\ m_gpxFilePath c' = gpxFilePath
     /\ m_simulated c' = m_simulated c
     /\ m_enabled c' = m_enabled c
     /\ In gpxFilePathChanged emitted).
Proof.
  split.
  - intros <-. unfold setGpxFilePath, setGpxFilePath_with, bind, gets, ret.
    rewrite String.eqb_refl. reflexivity.
  - intros Hneq. apply String.eqb_neq in Hneq.
    destruct c as [en si lv lk path sim src compass overlay]; cbn in *.
    unfold setGpxFilePath, setGpxFilePath_with at 1, bind, gets; cbn.
    rewrite Hneq.
    destruct sim as [sim|].
    + unfold initPositionInfoSource, deref, modify, emit, ret, gets, bind; cbn.
      do 3 eexists; split; [reflexivity|]; cbn.
      repeat split; auto.
    + unfold initPositionInfoSource, setGpxFilePath_with, deref, modify, emit,
        ret, gets, bind; cbn.
      destruct (String.eqb path (defaultGpxFilePath platform)); cbn;
        (do 3 eexists; split; [reflexivity|]); cbn; repeat split; auto.
Qed.

Lemma setGpxFilePath_spec_witness :
  setGpxFilePath devicePlatform "" idleController = Returned tt idleController []
  /\ exists c' emitted sim,
       setGpxFilePath devicePlatform "/logs/patrol.gpx" idleController
       = Returned tt c' emitted
       /\ m_simulator c' = Some sim
       /\ sim_gpxFile sim = "/logs/patrol.gpx"
       /\ sim_started sim = false
       /\ m_gpxFilePath c' = "/logs/patrol.gpx"
       /\ m_simulated c' = false
       /\ m_enabled c' = false
       /\ In gpxFilePathChanged emitted.
Proof.
  split.
  - apply (proj1 (setGpxFilePath_spec devicePlatform "" idleController)).
    reflexivity.
  - apply (proj2 (setGpxFilePath_spec devicePlatform "/logs/patrol.gpx" idleController)).
    cbn; discriminate.
Defined.

(** ** Entering Simulated mode *)

(** C3, as the code has it: entering Simulated mode on a controller for
    which no track log was ever set and no player exists always succeeds.
    The player is constructed and pointed to the packaged default path
    without a look at the file system, the mode becomes Simulated,
    [gpxFilePathChanged] and [simulatedChanged] are emitted and nothing
    else, and the player is not started. *)
Theorem setSimulated_without_track_log (platform : Platform) (c : LocationController) :
  m_simulated c = false ->
  m_simulator c = None ->
  m_gpxFilePath c = "" ->
  exists c',
    setSimulated platform true c
    = Returned tt c' [gpxFilePathChanged; simulatedChanged]
    /\ m_simulated c' = true
    /\ m_gpxFilePath c' = defaultGpxFilePath platform
    /\ m_simulator c'
       = Some {| sim_started := false;
                 sim_gpxFile := toLocalFile (defaultGpxFilePath platform) |}
    /\ noUpdates [gpxFilePathChanged; simulatedChanged] = true
    /\ ~ modeSwitchFailed c (setSimulated platform true c).
Proof.
  intros Hsi Hsim Hpath.
  destruct c as [en si lv lk path sim src compass overlay]; cbn in *; subst.
  unfold setSimulated, initPositionInfoSource, setGpxFilePath_with, deref, modify,
    emit, ret, gets, bind; cbn -[String.eqb defaultGpxFilePath].
  rewrite defaultGpxFilePath_not_empty; cbn -[defaultGpxFilePath].
  eexists; split; [reflexivity|].
  repeat split; auto.
  intros [H _]; discriminate.
Qed.

Lemma setSimulated_without_track_log_witness :
  exists c',
    setSimulated noSourcePlatform true idleController
    = Returned tt c' [gpxFilePathChanged; simulatedChanged]
    /\ m_simulated c' = true
    /\ m_gpxFilePath c' = "/data/MontereyMounted.gpx"
    /\ m_simulator c'
       = Some {| sim_started := false; sim_gpxFile := "/data/MontereyMounted.gpx" |}
    /\ noUpdates [gpxFilePathChanged; simulatedChanged] = true
    /\ ~ modeSwitchFailed idleController (setSimulated noSourcePlatform true idleController).
Proof.
  apply (setSimulated_without_track_log noSourcePlatform idleController);
    reflexivity.
Defined.

(** C3 fails as stated: on a device with nothing configured the switch to
    Simulated mode is not a failed one. *)
Lemma setSimulated_without_track_log_switches :
  ~ modeSwitchFailed idleController (setSimulated noSourcePlatform true idleController).
Proof. cbn. intros [H _]; discriminate. Qed.

(** ** Switching the mode *)

(** C2, as the code has it: [setSimulated] always returns and neither stops
    nor starts a producer, so whichever producers were started before the
    switch are started after it; [setEnabled] is what starts and stops, and
    it leaves the producer of the other mode as it is. *)
Theorem setSimulated_leaves_producers
    (platform : Platform) (b : bool) (c : LocationController) :
  (exists c' emitted,
     setSimulated platform b c = Returned tt c' emitted
     /\ simulatorStarted c' = simulatorStarted c
     /\ liveStarted c' = liveStarted c
     /\ atMostOneStarted c' = atMostOneStarted c)
  /\
  (forall c' emitted,
     setEnabled platform b c = Returned tt c' emitted ->
     if m_simulated c
     then liveStarted c' = liveStarted c
     else simulatorStarted c' = simulatorStarted c).
Proof.
  split.
  - destruct c as [en si lv lk path sim src compass overlay].
    unfold atMostOneStarted, simulatorStarted, liveStarted.
    destruct si, b, sim as [sim|]; cbn;
      unfold initPositionInfoSource, setGpxFilePath_with, deref, modify,
        emit, ret, gets, bind; cbn;
      try destruct (String.eqb path (defaultGpxFilePath platform)); cbn;
      (do 2 eexists; split; [reflexivity | cbn; auto]).
  - intros c' emitted Hrun.
    destruct platform as [data [source|]].
    all: destruct c as [[|] [|] lv lk path [sim|] [src|] [compass|] overlay].
    all: destruct b; unfold simulatorStarted, liveStarted; read_run Hrun.
Qed.

Lemma setSimulated_leaves_producers_witness :
  exists c1 c2 emitted1 emitted2,
    setEnabled devicePlatform true idleController = Returned tt c1 emitted1
    /\ simulatorStarted c1 = false
    /\ setSimulated devicePlatform true c1 = Returned tt c2 emitted2
    /\ liveStarted c2 = liveStarted c1.
Proof.
  destruct (setSimulated_leaves_producers devicePlatform true idleController)
    as [_ Henable].
  eexists.
  destruct (setSimulated_leaves_producers devicePlatform true
              (set_m_enabled true
                 (set_m_compass (Some {| compass_active := true |})
                    (set_m_positionSource (Some {| source_updating := true |})
                       idleController))))
    as [(c2 & emitted2 & Hswitch & _ & Hlive & _) _].
  exists c2, [enabledChanged], emitted2.
  split; [reflexivity|].
  split; [exact (Henable _ _ eq_refl)|].
  split; [exact Hswitch | exact Hlive].
Defined.

(** C2 fails as stated.  Enabling in Live mode starts the live producer;
    the switch to Simulated mode leaves it started; disabling and enabling
    again then starts the track-log player next to it. *)
Lemma mode_switch_keeps_previous_producer :
  exists c1 c2 c3 emitted1 emitted2 emitted3,
    setEnabled devicePlatform true idleController = Returned tt c1 emitted1
    /\ liveStarted c1 = true
    /\ setSimulated devicePlatform true c1 = Returned tt c2 emitted2
    /\ liveStarted c2 = true
    /\ simulatorStarted c2 = false
    /\ runAll devicePlatform [CallSetEnabled false; CallSetEnabled true] c2
       = Returned tt c3 emitted3
    /\ liveStarted c3 = true
    /\ simulatorStarted c3 = true
    /\ atMostOneStarted c3 = false.
Proof.
  do 6 eexists.
  split; [reflexivity|]. split; [reflexivity|].
  split; [reflexivity|]. split; [reflexivity|]. split; [reflexivity|].
  split; [reflexivity|]. repeat split.
Qed.

(** ** The last known heading *)

(** C9: of everything that can happen to a controller, only an update of
    the track-log player writes [m_lastKnownHeading], and it stores the
    heading of the update; a compass reading is emitted as a heading change
    and leaves the whole controller as it is. *)
Theorem lastKnownHeading_written_by_simulator_only
    (platform : Platform) (call : Call) (c c' : LocationController)
    (emitted : list Signal) :
  run platform call c = Returned tt c' emitted ->
  m_lastKnownHeading c'
  = match call with
    | PositionUpdateAvailable _ heading => heading
    | _ => m_lastKnownHeading c
    end
  /\ match call with
     | ReadingChanged (Some r) => c' = c /\ emitted = [headingChanged (azimuth r)]
     | _ => True
     end.
Proof.
  intros Hrun.
  destruct call as [[|] | [|] | p | pos heading | update | [r|] | h].
  1-2: destruct platform as [data [source|]].
  1-4: destruct c as [[|] [|] lv lk path [sim|] [src|] [compass|] overlay];
    read_run Hrun.
  1-3: destruct c as [en [|] lv lk path [sim|] src compass overlay];
    read_run Hrun.
  - read_run Hrun.
  - destruct update as [[|] [[|] [| |] lon lat alt]]; read_run Hrun.
  - read_run Hrun.
  - read_run Hrun.
  - unfold run, onViewpointChanged, bind, gets, modify, emit, ret in Hrun.
    destruct (PrimFloat.ltb _ _); cbn in Hrun;
      [| destruct (m_enabled c) eqn:Hen; cbn in Hrun; rewrite ?Hen in Hrun; cbn in Hrun];
      inversion Hrun; subst; cbn; auto.
Qed.

Lemma lastKnownHeading_written_by_simulator_only_witness :
  m_lastKnownHeading (set_m_lastKnownHeading 45%float idleController) = 45%float
  /\ (set_m_lastKnownHeading 45%float idleController
      = set_m_lastKnownHeading 45%float idleController
      /\ [headingChanged 270%float] = [headingChanged 270%float]).
Proof.
  apply (lastKnownHeading_written_by_simulator_only devicePlatform
           (ReadingChanged (Some (mkQCompassReading 270%float)))
           (set_m_lastKnownHeading 45%float idleController)
           (set_m_lastKnownHeading 45%float idleController)
           [headingChanged 270%float]).
  reflexivity.
Defined.

(** * Further properties of the controller *)

(** ** The setters are idempotent *)

(** Whatever [setEnabled] does, a second call with the same argument
    changes nothing and emits nothing; a run that stops on the null
    position source stops in the first call. *)
Theorem setEnabled_idempotent
    (platform : Platform) (e : bool) (c : LocationController) :
  (setEnabled platform e ;; setEnabled platform e)%member c = setEnabled platform e c.
Proof.
  destruct platform as [data [source|]].
  all: destruct c as [[|] [|] lv lk path [sim|] [src|] [compass|] overlay].
  all: destruct e; by_members; reflexivity.
Qed.

(** A second [setSimulated] with the same argument changes nothing and
    emits nothing. *)
Theorem setSimulated_idempotent
    (platform : Platform) (b : bool) (c : LocationController) :
  (setSimulated platform b ;; setSimulated platform b)%member c
  = setSimulated platform b c.
Proof.
  destruct c as [en [|] lv lk path [sim|] src compass overlay].
  all: destruct b; by_members; reflexivity.
Qed.

(** A second [setGpxFilePath] with the same path changes nothing and emits
    nothing: the player is not pointed to the file again. *)
Theorem setGpxFilePath_idempotent
    (platform : Platform) (gpxFilePath : QUrl) (c : LocationController) :
  (setGpxFilePath platform gpxFilePath ;; setGpxFilePath platform gpxFilePath)%member c
  = setGpxFilePath platform gpxFilePath c.
Proof.
  destruct c as [en si lv lk path [sim|] src compass overlay].
  all: unfold setGpxFilePath, initPositionInfoSource, setGpxFilePath_with,
         deref, modify, emit, ret, gets, bind; cbn.
  all: destruct (String.eqb path gpxFilePath) eqn:Hsame; cbn;
         rewrite ?Hsame; cbn; try reflexivity.
  - rewrite String.eqb_refl. reflexivity.
  - destruct (String.eqb path (defaultGpxFilePath platform)); cbn;
      rewrite ?Hsame, ?String.eqb_refl; cbn.
    + reflexivity.
    + destruct (String.eqb (defaultGpxFilePath platform) gpxFilePath) eqn:Hdef; cbn;
        rewrite ?String.eqb_refl; reflexivity.
Qed.

(** ** What a successful [setEnabled] establishes *)



(** ** Nothing is ever torn down *)

(** No call makes a pointer member null again: a player, a position
    source, a compass or an overlay that exists before a call exists after
    it. *)
Theorem producers_never_torn_down
    (platform : Platform) (call : Call) (c c' : LocationController)
    (emitted : list Signal) :
  run platform call c = Returned tt c' emitted ->
  (isNull (m_simulator c) = false -> isNull (m_simulator c') = false)
  /\ (isNull (m_positionSource c) = false -> isNull (m_positionSource c') = false)
  /\ (isNull (m_compass c) = false -> isNull (m_compass c') = false)
  /\ (isNull (m_locationOverlay c) = false -> isNull (m_locationOverlay c') = false).
Proof.
  intros Hrun.
  destruct call as [[|] | [|] | p | pos heading | update | [r|] | h].
  1-2: destruct platform as [data [source|]].
  1-4: destruct c as [[|] [|] lv lk path [sim|] [src|] [compass|] [overlay|]];
    read_run Hrun; repeat split; auto.
  1-3: destruct c as [en [|] lv lk path [sim|] [src|] [compass|] [overlay|]];
    read_run Hrun; repeat split; auto.
  - read_run Hrun.
  - destruct update as [[|] [[|] [| |] lon lat alt]]; read_run Hrun.
  - read_run Hrun.
  - read_run Hrun.
  - unfold run, onViewpointChanged, bind, gets, modify, emit, ret in Hrun.
    destruct (PrimFloat.ltb _ _); cbn in Hrun;
      [| destruct (m_enabled c) eqn:Hen; cbn in Hrun; rewrite ?Hen in Hrun; cbn in Hrun];
      inversion Hrun; subst; cbn; auto.
Qed.

Lemma producers_never_torn_down_witness :
  exists c',
    run devicePlatform (CallSetSimulated false)
      (set_m_simulated true
         (set_m_simulator (Some new_GPXLocationSimulator) idleController))
    = Returned tt c' [simulatedChanged]
    /\ isNull (m_simulator c') = false.
Proof.
  eexists. split; [reflexivity|].
  apply (producers_never_torn_down devicePlatform (CallSetSimulated false)
           (set_m_simulated true
              (set_m_simulator (Some new_GPXLocationSimulator) idleController))
           _ [simulatedChanged] eq_refl).
  reflexivity.
Defined.

(** ** Leaving Simulated mode *)

(** The switch back to Live mode changes the mode flag and nothing else: it
    constructs no position source and no compass, and it leaves the player
    and the track log path as they are. *)
Lemma setSimulated_false_only_flips
    (platform : Platform) (c : LocationController) :
  m_simulated c = true ->
  setSimulated platform false c
  = Returned tt (set_m_simulated false c) [simulatedChanged].
Proof.
  intros Hsi. unfold setSimulated, bind, gets, modify, emit, ret.
  rewrite Hsi. reflexivity.
Qed.


(** ** Reading back what was set *)

(** Each setter that returns is read back by its getter: [gpxFilePath()]
    after [setGpxFilePath], [simulated()] after [setSimulated], always; and
    [enabled()] after [setEnabled] whenever that returns. *)
Theorem getters_read_back
    (platform : Platform) (c : LocationController) :
  (forall p, exists c' emitted,
      (setGpxFilePath platform p ;; gpxFilePath)%member c = Returned p c' emitted)
  /\ (forall b, exists c' emitted,
      (setSimulated platform b ;; simulated)%member c = Returned b c' emitted)
  /\ (forall e c1 emitted1,
      setEnabled platform e c = Returned tt c1 emitted1 ->
      (setEnabled platform e ;; enabled)%member c = Returned e c1 emitted1).
Proof.
  split; [|split].
  - intros p.
    destruct c as [en si lv lk path [sim|] src compass overlay].
    all: unfold setGpxFilePath, initPositionInfoSource, setGpxFilePath_with,
           gpxFilePath, deref, modify, emit, ret, gets, bind; cbn.
    all: destruct (String.eqb path p) eqn:Hsame; cbn.
    1,3: apply String.eqb_eq in Hsame; subst; do 2 eexists; reflexivity.
    + do 2 eexists; reflexivity.
    + destruct (String.eqb path (defaultGpxFilePath platform)); cbn;
        do 2 eexists; reflexivity.
  - intros b.
    destruct c as [en [|] lv lk path [sim|] src compass overlay].
    all: destruct b; by_members; do 2 eexists; reflexivity.
  - intros e c1 emitted1 Hrun.
    unfold bind at 1. rewrite Hrun. unfold enabled, gets.
    rewrite app_nil_r.
    destruct platform as [data [source|]].
    all: destruct c as [[|] [|] lv lk path [sim|] [src|] [compass|] overlay].
    all: destruct e; read_run Hrun.
Qed.

Lemma getters_read_back_witness :
  (setEnabled devicePlatform true ;; enabled)%member idleController
  = Returned true
      (set_m_enabled true
         (set_m_compass (Some {| compass_active := true |})
            (set_m_positionSource (Some {| source_updating := true |})
               idleController)))
      [enabledChanged].
Proof.
  apply (proj2 (proj2 (getters_read_back devicePlatform idleController))).
  reflexivity.
Defined.

(** ** The player and the reported track log agree *)

Lemma pathConsistent_run
    (platform : Platform) (call : Call) (c c' : LocationController)
    (emitted : list Signal) :
  pathConsistent c ->
  run platform call c = Returned tt c' emitted ->
  pathConsistent c'.
Proof.
  intros Hc Hrun. unfold pathConsistent in *.
  destruct call as [[|] | [|] | p | pos heading | update | [r|] | h].
  1-2: destruct platform as [data [source|]].
  1-4: destruct c as [[|] [|] lv lk path [sim|] [src|] [compass|] overlay];
    cbn in Hc; read_run Hrun.
  1-3: destruct c as [en [|] lv lk path [sim|] src compass overlay];
    cbn in Hc; read_run Hrun.
  - read_run Hrun.
  - destruct update as [[|] [[|] [| |] lon lat alt]]; read_run Hrun.
  - read_run Hrun.
  - read_run Hrun.
  - unfold run, onViewpointChanged, bind, gets, modify, emit, ret in Hrun.
    destruct (PrimFloat.ltb _ _); cbn in Hrun;
      [| destruct (m_enabled c) eqn:Hen; cbn in Hrun; rewrite ?Hen in Hrun; cbn in Hrun];
      inversion Hrun; subst; cbn; auto.
Qed.

(** Along every sequence of calls, from a controller on which the player
    and the stored path agree: the file the player was last pointed to is
    the path [gpxFilePath()] reports, and as long as no player exists no
    path is stored. *)
Theorem pathConsistent_kept
    (platform : Platform) (c c' : LocationController) :
  pathConsistent c ->
  steps platform anyCall c c' ->
  pathConsistent c'.
Proof.
  intros Hc Hsteps. induction Hsteps as [c | c c1 c2 call emitted _ Hrun _ IH].
  - exact Hc.
  - apply IH. exact (pathConsistent_run platform call c c1 emitted Hc Hrun).
Qed.

Lemma pathConsistent_kept_witness :
  pathConsistent
    (set_m_gpxFilePath "/logs/patrol.gpx"
       (set_m_simulator
          (Some {| sim_started := false; sim_gpxFile := "/logs/patrol.gpx" |})
          idleController)).
Proof.
  apply (pathConsistent_kept devicePlatform idleController).
  - reflexivity.
  - apply (steps_call devicePlatform anyCall idleController _ _
             (CallSetGpxFilePath "/logs/patrol.gpx")
             [gpxFilePathChanged; gpxFilePathChanged] I eq_refl).
    apply steps_done.
Defined.

(** On such a controller [setGpxFilePath] notifies as follows: not at all
    for the path already stored; twice when it has to construct the player,
    which is first pointed to the packaged default and then to the path
    asked for; once otherwise. *)
Theorem setGpxFilePath_notifications
    (platform : Platform) (p : QUrl) (c c' : LocationController)
    (emitted : list Signal) :
  pathConsistent c ->
  setGpxFilePath platform p c = Returned tt c' emitted ->
  countGpxFilePathChanged emitted
  = if String.eqb (m_gpxFilePath c) p then 0
    else if isNull (m_simulator c) then 2 else 1.
Proof.
  intros Hc Hrun. unfold pathConsistent in Hc.
  destruct c as [en si lv lk path [sim|] src compass overlay]; cbn in Hc |- *.
  - unfold setGpxFilePath, initPositionInfoSource, setGpxFilePath_with,
      deref, modify, emit, ret, gets, bind in Hrun; cbn in Hrun.
    destruct (String.eqb path p); cbn in Hrun; inversion Hrun; reflexivity.
  - subst path.
    unfold setGpxFilePath, initPositionInfoSource, setGpxFilePath_with,
      deref, modify, emit, ret, gets, bind in Hrun;
      cbn -[String.eqb defaultGpxFilePath] in Hrun.
    destruct (String.eqb "" p); cbn -[String.eqb defaultGpxFilePath] in Hrun.
    + inversion Hrun; reflexivity.
    + rewrite defaultGpxFilePath_not_empty in Hrun.
      cbn -[defaultGpxFilePath] in Hrun. inversion Hrun; reflexivity.
Qed.

Lemma setGpxFilePath_notifications_witness :
  countGpxFilePathChanged [gpxFilePathChanged; gpxFilePathChanged] = 2.
Proof.
  apply (setGpxFilePath_notifications devicePlatform "/logs/patrol.gpx"
           idleController
           (set_m_gpxFilePath "/logs/patrol.gpx"
              (set_m_simulator
                 (Some {| sim_started := false; sim_gpxFile := "/logs/patrol.gpx" |})
                 idleController))
           [gpxFilePathChanged; gpxFilePathChanged]);
    reflexivity.
Defined.

(** ** Mutual exclusion of the producers, under discipline *)

Lemma exclusive_run
    (platform : Platform) (call : Call) (c c' : LocationController)
    (emitted : list Signal) :
  exclusive c ->
  disciplined c call ->
  run platform call c = Returned tt c' emitted ->
  exclusive c'.
Proof.
  intros Hc Hd Hrun. unfold exclusive, disciplined in *.
  unfold simulatorStarted, liveStarted in *.
  destruct call as [[|] | [|] | p | pos heading | update | [r|] | h].
  1-2: destruct platform as [data [source|]].
  1-4: destruct c as [[|] [|] lv lk path [[[|] file]|] [[[|]]|] [[[|]]|] overlay];
    cbn in Hc; try (destruct Hc; discriminate); try discriminate;
    read_run Hrun.
  1-3: destruct c as [[|] [|] lv lk path [[[|] file]|] [[[|]]|] [[[|]]|] overlay];
    cbn in Hc, Hd; try (destruct Hc; discriminate); try discriminate;
    read_run Hrun.
  - read_run Hrun.
  - destruct update as [[|] [[|] [| |] lon lat alt]]; read_run Hrun.
  - read_run Hrun.
  - read_run Hrun.
  - unfold run, onViewpointChanged, bind, gets, modify, emit, ret in Hrun.
    destruct (PrimFloat.ltb _ _); cbn in Hrun;
      [| destruct (m_enabled c) eqn:Hen; cbn in Hrun; rewrite ?Hen in Hrun; cbn in Hrun];
      inversion Hrun; subst; cbn; rewrite ?Hen; auto.
Qed.

Lemma exclusive_atMostOneStarted (c : LocationController) :
  exclusive c -> atMostOneStarted c = true.
Proof.
  unfold exclusive, atMostOneStarted.
  destruct (m_enabled c), (m_simulated c).
  - intros H; rewrite H, andb_false_r; reflexivity.
  - intros H; rewrite H; reflexivity.
  - intros [H _]; rewrite H; reflexivity.
  - intros [H _]; rewrite H; reflexivity.
Qed.

(** As long as the mode is changed only while updates are disabled, the
    producers exclude each other: along every such sequence of calls, from
    a controller on which nothing runs that should not, at most one
    producer is started and none is while updates are disabled. *)
Theorem exclusive_kept
    (platform : Platform) (c c' : LocationController) :
  exclusive c ->
  steps platform disciplined c c' ->
  exclusive c' /\ atMostOneStarted c' = true.
Proof.
  intros Hc Hsteps.
  induction Hsteps as [c | c c1 c2 call emitted Hd Hrun _ IH].
  - split; [exact Hc | exact (exclusive_atMostOneStarted c Hc)].
  - apply IH. exact (exclusive_run platform call c c1 emitted Hc Hd Hrun).
Qed.

Lemma exclusive_kept_witness :
  exclusive
    (set_m_enabled true
       (set_m_simulator
          (Some {| sim_started := true; sim_gpxFile := "/data/MontereyMounted.gpx" |})
          (set_m_gpxFilePath "/data/MontereyMounted.gpx"
             (set_m_simulated true idleController))))
  /\ atMostOneStarted
       (set_m_enabled true
          (set_m_simulator
             (Some {| sim_started := true; sim_gpxFile := "/data/MontereyMounted.gpx" |})
             (set_m_gpxFilePath "/data/MontereyMounted.gpx"
                (set_m_simulated true idleController)))) = true.
Proof.
  apply (exclusive_kept devicePlatform idleController).
  - vm_compute. split; reflexivity.
  - apply (steps_call devicePlatform disciplined idleController
             (set_m_simulator
                (Some {| sim_started := false;
                         sim_gpxFile := "/data/MontereyMounted.gpx" |})
                (set_m_gpxFilePath "/data/MontereyMounted.gpx"
                   (set_m_simulated true idleController)))
             _ (CallSetSimulated true) [gpxFilePathChanged; simulatedChanged]);
      [vm_compute; reflexivity | vm_compute; reflexivity |].
    apply (steps_call devicePlatform disciplined
             (set_m_simulator
                (Some {| sim_started := false;
                         sim_gpxFile := "/data/MontereyMounted.gpx" |})
                (set_m_gpxFilePath "/data/MontereyMounted.gpx"
                   (set_m_simulated true idleController)))
             (set_m_enabled true
                (set_m_simulator
                   (Some {| sim_started := true;
                            sim_gpxFile := "/data/MontereyMounted.gpx" |})
                   (set_m_gpxFilePath "/data/MontereyMounted.gpx"
                      (set_m_simulated true idleController))))
             _ (CallSetEnabled true) [enabledChanged]);
      [vm_compute; reflexivity | vm_compute; reflexivity |].
    apply steps_done.
Defined.

(** * The overlay *)

(** ** Order of binary64 values *)

Lemma SFcompare_antisym (a b : spec_float) :
  SFcompare b a = option_map CompOpp (SFcompare a b).
Proof.
  destruct a as [sa | sa | | sa ma ea], b as [sb | sb | | sb mb eb]; cbn;
    try reflexivity;
    try (destruct sa; reflexivity); try (destruct sb; reflexivity);
    try (destruct sa, sb; reflexivity).
  destruct sa, sb; cbn; try reflexivity; f_equal.
  - rewrite (Z.compare_antisym ea eb).
    destruct (ea ?= eb)%Z; cbn; try reflexivity.
    rewrite (Pos.compare_cont_antisym ma mb Eq). reflexivity.
  - rewrite (Z.compare_antisym ea eb).
    destruct (ea ?= eb)%Z; cbn; try reflexivity.
    rewrite (Pos.compare_cont_antisym ma mb Eq). reflexivity.
Qed.

Lemma is_nan_false (x : float) : is_nan x = false -> Prim2SF x <> S754_nan.
Proof.
  unfold is_nan. rewrite FloatAxioms.eqb_spec. intros H Hnan. rewrite Hnan in H. discriminate.
Qed.

Lemma SFcompare_defined (a b : spec_float) :
  a <> S754_nan -> b <> S754_nan -> exists cmp, SFcompare a b = Some cmp.
Proof.
  intros Ha Hb.
  destruct a as [sa | sa | | sa ma ea], b as [sb | sb | | sb mb eb]; cbn;
    try congruence; eexists; reflexivity.
Qed.

Lemma leb_false_flip (x y : float) :
  is_nan x = false -> is_nan y = false ->
  PrimFloat.leb x y = false -> PrimFloat.leb y x = true.
Proof.
  intros Hx Hy. rewrite !FloatAxioms.leb_spec. unfold SFleb.
  rewrite (SFcompare_antisym (Prim2SF x) (Prim2SF y)).
  destruct (SFcompare_defined _ _ (is_nan_false x Hx) (is_nan_false y Hy)) as [cmp ->].
  destruct cmp; cbn; congruence.
Qed.

Lemma leb_true_not_ltb (x y : float) :
  PrimFloat.leb x y = true -> PrimFloat.ltb y x = false.
Proof.
  rewrite FloatAxioms.leb_spec, FloatAxioms.ltb_spec. unfold SFleb, SFltb.
  rewrite (SFcompare_antisym (Prim2SF x) (Prim2SF y)).
  destruct (SFcompare (Prim2SF x) (Prim2SF y)) as [[| |]|]; cbn; congruence.
Qed.

Lemma initOverlay_loop_chain (fuel : nat) :
  forall (i : float) (rangeSize : binary32) (l : list DistanceSymbolRange),
    initOverlay_loop fuel i rangeSize = Some l ->
    contiguous l
    /\ (forall r rest, l = r :: rest -> range_minDistance r = i).
Proof.
  induction fuel as [|fuel IH]; intros i rangeSize l; cbn [initOverlay_loop].
  - destruct (PrimFloat.ltb i maxRange); [discriminate|].
    intros [= <-]. split; [exact I | discriminate].
  - destruct (PrimFloat.ltb i maxRange); [| intros [= <-]; split; [exact I | discriminate]].
    destruct (initOverlay_loop fuel (i * rangeMultiplier)%float _) as [rest|] eqn:Hrest;
      [|discriminate].
    cbn [option_map]. intros [= <-].
    destruct (IH _ _ _ Hrest) as [Hchain Hhead].
    split.
    + destruct rest as [|next rest']; [exact I|].
      split; [|exact Hchain].
      rewrite (Hhead next rest' eq_refl).
      destruct (PrimFloat.leb maxRange (i * rangeMultiplier)%float) eqn:Hlast;
        [|reflexivity].
      (* the loop must have stopped *)
      exfalso. apply leb_true_not_ltb in Hlast.
      destruct fuel; cbn [initOverlay_loop] in Hrest; rewrite Hlast in Hrest; discriminate.
    + intros r rest0 [= <- _].
      destruct (PrimFloat.leb maxRange (i * rangeMultiplier)%float); reflexivity.
Qed.

Lemma initOverlay_loop_more_fuel (fuel extra : nat) :
  forall (i : float) (rangeSize : binary32) (l : list DistanceSymbolRange),
    initOverlay_loop fuel i rangeSize = Some l ->
    initOverlay_loop (fuel + extra) i rangeSize = Some l.
Proof.
  induction fuel as [|fuel IH]; intros i rangeSize l; cbn [initOverlay_loop Nat.add].
  - destruct (PrimFloat.ltb i maxRange) eqn:Hlt; [discriminate|].
    intros [= <-]. destruct extra; cbn [initOverlay_loop Nat.add]; rewrite Hlt; reflexivity.
  - destruct (PrimFloat.ltb i maxRange); [|trivial].
    destruct (initOverlay_loop fuel (i * rangeMultiplier)%float _) as [rest|] eqn:Hrest;
      [|discriminate].
    rewrite (IH _ _ _ Hrest). trivial.
Qed.

Lemma contiguous_covers (l : list DistanceSymbolRange) :
  forall (d : float),
    l <> [] ->
    contiguous l ->
    lastUnbounded l ->
    boundsAreNumbers l = true ->
    is_nan d = false ->
    (forall r rest, l = r :: rest -> PrimFloat.leb (range_minDistance r) d = true) ->
    exists r, In r l /\ inRange d r.
Proof.
  induction l as [|r rest IH]; intros d Hne Hchain Hlast Hnum Hd Hfrom;
    [congruence|].
  destruct rest as [|next rest'].
  - exists r. split; [left; reflexivity|].
    split; [exact (Hfrom r [] eq_refl) | right; exact Hlast].
  - destruct (PrimFloat.leb d (range_maxDistance r)) eqn:Hle.
    + exists r. split; [left; reflexivity|].
      split; [exact (Hfrom r _ eq_refl) | left; exact Hle].
    + cbn in Hnum. apply andb_prop in Hnum as [Hr Hnum].
      apply andb_prop in Hr as [_ Hmax]. apply negb_true_iff in Hmax.
      destruct Hchain as [Hlink Hchain].
      destruct (IH d) as (r' & Hin & Hr'); try assumption.
      * discriminate.
      * intros r0 rest0 [= <- _]. rewrite <- Hlink.
        apply leb_false_flip; assumption.
      * exists r'. split; [right; exact Hin | exact Hr'].
Qed.

(** ** The distance ranges of the marker *)

Lemma initOverlay_ranges_235 :
  exists l,
    initOverlay_ranges 235 = Some l
    /\ List.length l = 236
    /\ hd_error l = Some (mkDistanceSymbolRange symbolSize 0%float 1000%float)
    /\ contiguous l
    /\ lastUnbounded l
    /\ boundsAreNumbers l = true
    /\ growing l = true.
Proof.
  destruct (initOverlay_ranges 235) as [l|] eqn:Hl; [|vm_compute in Hl; discriminate].
  exists l. split; [reflexivity|].
  assert (Hchain : contiguous l).
  { unfold initOverlay_ranges in Hl.
    destruct (initOverlay_loop 235 1000%float symbolSize) as [l1|] eqn:H1;
      [|discriminate].
    cbn [option_map] in Hl. injection Hl as <-.
    destruct (initOverlay_loop_chain _ _ _ _ H1) as [Hchain Hhead].
    destruct l1 as [|next rest]; [exact I|].
    split; [|exact Hchain].
    cbn. symmetry. exact (Hhead next rest eq_refl). }
  assert (Hsome : Some l = initOverlay_ranges 235) by (symmetry; exact Hl).
  clear Hl. vm_compute in Hsome. injection Hsome as Hsome.
  split; [rewrite Hsome; vm_compute; reflexivity|].
  split; [rewrite Hsome; vm_compute; reflexivity|].
  split; [exact Hchain|].
  split; [rewrite Hsome; vm_compute; reflexivity|].
  split; rewrite Hsome; vm_compute; reflexivity.
Qed.

Lemma initOverlay_ranges_fuel (fuel : nat) (l : list DistanceSymbolRange) :
  initOverlay_ranges fuel = Some l -> initOverlay_ranges 235 = Some l.
Proof.
  unfold initOverlay_ranges.
  destruct (initOverlay_loop fuel 1000%float symbolSize) as [l1|] eqn:H1;
    [|discriminate].
  destruct (initOverlay_loop 235 1000%float symbolSize) as [l2|] eqn:H2;
    [|vm_compute in H2; discriminate].
  apply (initOverlay_loop_more_fuel fuel 235) in H1.
  apply (initOverlay_loop_more_fuel 235 fuel) in H2.
  rewrite (Nat.add_comm 235 fuel) in H2. rewrite H1 in H2.
  injection H2 as ->. trivial.
Qed.

(** The loop of [initOverlay] ends after 235 rounds, and the 236 ranges it
    leaves tile the distances: the first range is [0, 1000] with the symbol
    of size 45, every range begins where the one before ends, every symbol
    is larger than the one before, and the last range has no maximum. *)
Theorem initOverlay_ranges_tile (fuel : nat) :
  235 <= fuel ->
  exists l,
    initOverlay_ranges fuel = Some l
    /\ List.length l = 236
    /\ hd_error l = Some (mkDistanceSymbolRange symbolSize 0%float 1000%float)
    /\ contiguous l
    /\ lastUnbounded l
    /\ growing l = true.
Proof.
  intros Hfuel.
  destruct initOverlay_ranges_235
    as (l & Hl & Hlen & Hhd & Hchain & Hlast & _ & Hgrow).
  exists l. split.
  - unfold initOverlay_ranges in *.
    destruct (initOverlay_loop 235 1000%float symbolSize) as [l1|] eqn:H1;
      [|discriminate].
    apply (initOverlay_loop_more_fuel 235 (fuel - 235)) in H1.
    replace (235 + (fuel - 235)) with fuel in H1 by lia.
    rewrite H1. exact Hl.
  - repeat split; assumption.
Qed.

(** Every distance has its symbol: each number [d >= 0] lies in one of the
    ranges [initOverlay] builds. *)
Theorem initOverlay_ranges_cover
    (fuel : nat) (l : list DistanceSymbolRange) (d : float) :
  initOverlay_ranges fuel = Some l ->
  is_nan d = false ->
  PrimFloat.leb 0%float d = true ->
  exists r, In r l /\ inRange d r.
Proof.
  intros Hl Hd Hpos.
  apply initOverlay_ranges_fuel in Hl.
  destruct initOverlay_ranges_235
    as (l0 & Hl0 & _ & Hhd & Hchain & Hlast & Hnum & _).
  rewrite Hl in Hl0. injection Hl0 as <-.
  apply contiguous_covers; try assumption.
  - intros ->. discriminate.
  - intros r rest ->. cbn [hd_error] in Hhd. injection Hhd as ->. exact Hpos.
Qed.

Lemma initOverlay_ranges_cover_witness :
  exists l,
    initOverlay_ranges 235 = Some l
    /\ exists r, In r l /\ inRange 5000%float r.
Proof.
  destruct initOverlay_ranges_235 as (l & Hl & _).
  exists l. split; [exact Hl|].
  apply (initOverlay_ranges_cover 235 l 5000%float Hl); reflexivity.
Defined.

Lemma initOverlay_ranges_tile_witness :
  exists l,
    initOverlay_ranges 300 = Some l
    /\ List.length l = 236
    /\ hd_error l = Some (mkDistanceSymbolRange symbolSize 0%float 1000%float)
    /\ contiguous l
    /\ lastUnbounded l
    /\ growing l = true.
Proof.
  apply (initOverlay_ranges_tile 300).
  do 65 apply le_S. apply le_n.
Defined.

(** ** The marker *)

(** Only the producers move the marker.  Once [initOverlay] has connected
    its slots: after a call that returns, the marker is where the position
    of the call puts it, at the height 10 whatever the altitude of the fix,
    and its heading is the absolute heading of the call; the setters and a
    change of the view, relative heading included, leave the marker as it
    is. *)
Theorem marker_follows_updates
    (platform : Platform) (call : Call) (c c' : LocationController)
    (emitted : list Signal) (g : Graphic) :
  run platform call c = Returned tt c' emitted ->
  deliverAll emitted g = markerAfter call g.
Proof.
  intros Hrun. unfold deliverAll.
  destruct call as [[|] | [|] | p | pos heading | update | [r|] | h].
  1-2: destruct platform as [data [source|]].
  1-4: destruct c as [[|] [|] lv lk path [sim|] [src|] [compass|] overlay];
    read_run Hrun.
  1-3: destruct c as [en [|] lv lk path [sim|] src compass overlay];
    read_run Hrun.
  - read_run Hrun.
  - destruct update as [[|] [[|] [| |] lon lat alt]]; read_run Hrun.
  - read_run Hrun.
  - read_run Hrun.
  - unfold run, onViewpointChanged, bind, gets, modify, emit, ret in Hrun.
    destruct (PrimFloat.ltb _ _); cbn in Hrun;
      [| destruct (m_enabled c) eqn:Hen; cbn in Hrun; rewrite ?Hen in Hrun; cbn in Hrun];
      inversion Hrun; subst; cbn; auto.
Qed.

Lemma marker_follows_updates_witness :
  deliverAll
    [positionChanged (mkPoint (-122)%float 36.5%float (Some 15%float) wgs84)]
    new_positionGraphic
  = {| graphic_geometry := Some (mkMarkerPoint (-122)%float 36.5%float 10%float);
       graphic_heading := 0%float |}.
Proof.
  apply (marker_follows_updates devicePlatform (PositionUpdated fix3D)
           idleController idleController
           [positionChanged (mkPoint (-122)%float 36.5%float (Some 15%float) wgs84)]
           new_positionGraphic).
  reflexivity.
Defined.

(** ** The overlay is created on first use *)

(** [locationOverlay()] always returns an overlay and emits nothing.  It
    returns the overlay the controller has, leaving the controller as it
    is, and constructs one only when there is none; a second call returns
    the same overlay again. *)
Theorem locationOverlay_lazy
    (newOverlay : GraphicsOverlay) (c : LocationController) :
  exists o c',
    locationOverlay newOverlay c = Returned o c' []
    /\ m_locationOverlay c' = Some o
    /\ match m_locationOverlay c with
       | Some existing => o = existing /\ c' = c
       | None => o = newOverlay /\ c' = set_m_locationOverlay (Some newOverlay) c
       end
    /\ locationOverlay newOverlay c' = Returned o c' [].
Proof.
  unfold locationOverlay, initOverlay, bind, gets, modify, ret, deref.
  destruct c as [en si lv lk path sim src compass [overlay|]]; cbn;
    do 2 eexists; (split; [reflexivity|]); cbn; auto.
Qed.

(** [setEnabled] shows or hides the overlay only if it exists already: an
    overlay first asked for after the call comes with the visibility it
    was constructed with, whatever the enabled state. *)
Theorem overlay_visibility_after_setEnabled
    (platform : Platform) (e : bool) (newOverlay : GraphicsOverlay)
    (c c1 : LocationController) (emitted : list Signal) :
  m_enabled c = negb e ->
  setEnabled platform e c = Returned tt c1 emitted ->
  exists o c2,
    locationOverlay newOverlay c1 = Returned o c2 []
    /\ overlay_visible o
       = if isNull (m_locationOverlay c) then overlay_visible newOverlay else e.
Proof.
  intros Hen Hrun.
  destruct platform as [data [source|]].
  all: destruct c as [en si lv lk path sim src compass overlay];
    cbn in Hen; subst en.
  all: destruct si, sim as [sim|], src as [src|], compass as [compass|],
         overlay as [overlay|], e.
  all: read_run Hrun.
  all: unfold locationOverlay, initOverlay, bind, gets, modify, ret, deref; cbn.
  all: do 2 eexists; split; reflexivity.
Qed.

Lemma overlay_visibility_after_setEnabled_witness :
  exists o c2,
    locationOverlay {| overlay_visible := true |}
      (set_m_enabled false
         (set_m_compass (Some {| compass_active := false |})
            (set_m_positionSource (Some {| source_updating := false |})
               (set_m_enabled true idleController))))
    = Returned o c2 []
    /\ overlay_visible o = true.
Proof.
  apply (overlay_visibility_after_setEnabled devicePlatform false
           {| overlay_visible := true |}
           (set_m_enabled true idleController) _ [enabledChanged]);
    reflexivity.
Defined.

(** * Further edge behaviour of the controller *)

(** ** NaN and the jitter filter *)

Lemma sub_nan_r (x : float) : (x - nan)%float = nan.
Proof.
  apply Prim2SF_inj. rewrite sub_spec.
  replace (Prim2SF nan) with S754_nan by reflexivity.
  unfold SF64sub, SFsub. destruct (Prim2SF x); reflexivity.
Qed.

Lemma sub_nan_l (x : float) : (nan - x)%float = nan.
Proof.
  apply Prim2SF_inj. rewrite sub_spec.
  replace (Prim2SF nan) with S754_nan by reflexivity.
  unfold SF64sub, SFsub. destruct (Prim2SF x); reflexivity.
Qed.

Lemma add_nan_r (x : float) : (x + nan)%float = nan.
Proof.
  apply Prim2SF_inj. rewrite add_spec.
  replace (Prim2SF nan) with S754_nan by reflexivity.
  unfold SF64add, SFadd. destruct (Prim2SF x); reflexivity.
Qed.

(** The filter never holds back a NaN.  A view heading that is NaN is
    recorded and, while updates are disabled, published as the relative
    heading NaN; and the view heading that follows a recorded NaN is
    recorded whatever it is, however small the change. *)
Theorem onViewpointChanged_nan (c : LocationController) :
  onViewpointChanged nan c
  = Returned tt (set_m_lastViewHeading nan c)
      (if m_enabled c then [] else [relativeHeadingChanged nan])
  /\ (forall v,
        m_lastViewHeading c = nan ->
        exists emitted,
          onViewpointChanged v c = Returned tt (set_m_lastViewHeading v c) emitted).
Proof.
  split.
  - unfold onViewpointChanged, bind, gets, modify, emit, ret.
    rewrite sub_nan_r.
    replace (PrimFloat.ltb (abs nan) viewHeadingThreshold) with false by reflexivity.
    cbn. destruct (m_enabled c); cbn; [reflexivity|].
    rewrite add_nan_r. reflexivity.
  - intros v Hlast.
    unfold onViewpointChanged, bind, gets, modify, emit, ret.
    rewrite Hlast, sub_nan_l.
    replace (PrimFloat.ltb (abs nan) viewHeadingThreshold) with false by reflexivity.
    cbn. destruct (m_enabled c); cbn; eexists; reflexivity.
Qed.

Lemma onViewpointChanged_nan_witness :
  exists emitted,
    onViewpointChanged 0%float (set_m_lastViewHeading nan idleController)
    = Returned tt
        (set_m_lastViewHeading 0%float (set_m_lastViewHeading nan idleController))
        emitted.
Proof.
  apply (proj2 (onViewpointChanged_nan (set_m_lastViewHeading nan idleController))).
  reflexivity.
Defined.

(** ** Into Simulated mode and back *)

(** Entering Simulated mode and leaving it again always returns, in Live
    mode, with the enabled flag, the live producer and the started state of
    the player as before.  It is a round trip exactly for a controller that
    had a player already: otherwise the player constructed on the way in
    stays. *)
Theorem simulated_mode_and_back (platform : Platform) (c : LocationController) :
  m_simulated c = false ->
  exists c' emitted,
    (setSimulated platform true ;; setSimulated platform false) c
    = Returned tt c' emitted
    /\ m_simulated c' = false
    /\ isNull (m_simulator c') = false
    /\ (isNull (m_simulator c) = false -> c' = c)
    /\ m_enabled c' = m_enabled c
    /\ m_positionSource c' = m_positionSource c
    /\ m_compass c' = m_compass c
    /\ simulatorStarted c' = simulatorStarted c.
Proof.
  intros Hsi.
  destruct c as [en si lv lk path [sim|] src compass overlay]; cbn in Hsi; subst si.
  all: unfold setSimulated, initPositionInfoSource, setGpxFilePath_with,
         simulatorStarted, deref, modify, emit, ret, gets, bind; cbn.
  - do 2 eexists. split; [reflexivity|]. cbn. repeat split; auto.
  - destruct (String.eqb path (defaultGpxFilePath platform)); cbn;
      (do 2 eexists; split; [reflexivity|]); cbn; repeat split; auto; discriminate.
Qed.

Lemma simulated_mode_and_back_witness :
  exists c' emitted,
    (setSimulated devicePlatform true ;; setSimulated devicePlatform false)
      idleController
    = Returned tt c' emitted
    /\ m_simulated c' = false
    /\ isNull (m_simulator c') = false
    /\ (isNull (m_simulator idleController) = false -> c' = idleController)
    /\ m_enabled c' = m_enabled idleController
    /\ m_positionSource c' = m_positionSource idleController
    /\ m_compass c' = m_compass idleController
    /\ simulatorStarted c' = simulatorStarted idleController.
Proof.
  apply (simulated_mode_and_back devicePlatform idleController).
  reflexivity.
Defined.

(** * [GraphicsOverlaysResultsManager] *)

Lemma qDeleteAll_spec (items : list GraphicsOverlaysResultsManager.pointer) :
  forall (h h' : GraphicsOverlaysResultsManager.Heap),
    GraphicsOverlaysResultsManager.qDeleteAll items h = Some h' ->
    NoDup (GraphicsOverlaysResultsManager.targets items)
    /\ (forall a, In a (GraphicsOverlaysResultsManager.targets items) -> h a = true)
    /\ (forall a, h' a
                  = h a && negb (existsb (Nat.eqb a)
                                   (GraphicsOverlaysResultsManager.targets items))).
Proof.
  induction items as [|[a|] rest IH]; intros h h'; cbn.
  - intros [= <-]. split; [constructor|]. split; [intros a []|].
    intros a. rewrite andb_true_r. reflexivity.
  - destruct (h a) eqn:Hlive; [|discriminate].
    intros Hrest. destruct (IH _ _ Hrest) as (Hnodup & Halive & Hafter).
    split; [|split].
    + constructor; [|exact Hnodup].
      intros Hin. specialize (Halive a Hin). cbn in Halive.
      rewrite Nat.eqb_refl in Halive. discriminate.
    + intros b [<- | Hin]; [exact Hlive|].
      specialize (Halive b Hin). cbn in Halive.
      destruct (Nat.eqb b a); [discriminate | exact Halive].
    + intros b. rewrite Hafter.
      destruct (Nat.eqb b a) eqn:Hba; cbn.
      * rewrite andb_false_r. reflexivity.
      * reflexivity.
  - intros Hrest. exact (IH _ _ Hrest).
Qed.

Lemma qDeleteAll_defined (items : list GraphicsOverlaysResultsManager.pointer) :
  forall (h : GraphicsOverlaysResultsManager.Heap),
    NoDup (GraphicsOverlaysResultsManager.targets items) ->
    (forall a, In a (GraphicsOverlaysResultsManager.targets items) -> h a = true) ->
    exists h', GraphicsOverlaysResultsManager.qDeleteAll items h = Some h'.
Proof.
  induction items as [|[a|] rest IH]; intros h Hnodup Halive; cbn.
  - eexists; reflexivity.
  - cbn in Hnodup, Halive. rewrite (Halive a (or_introl eq_refl)).
    inversion Hnodup as [|x xs Hnotin Hnodup']; subst.
    apply IH; [exact Hnodup'|].
    intros b Hin. destruct (Nat.eqb b a) eqn:Hba.
    + apply Nat.eqb_eq in Hba. subst. contradiction.
    + apply Halive. right. exact Hin.
  - apply IH; assumption.
Qed.

(** The destructor frees exactly the results of the list.  When the
    non-null results are distinct objects and alive, it ends with those
    objects gone and every other object as it was; null items are passed
    over. *)
Theorem destroy_frees_results
    (results : list GraphicsOverlaysResultsManager.pointer)
    (h : GraphicsOverlaysResultsManager.Heap) :
  NoDup (GraphicsOverlaysResultsManager.targets results) ->
  (forall a, In a (GraphicsOverlaysResultsManager.targets results) -> h a = true) ->
  exists h',
    GraphicsOverlaysResultsManager.destroy
      (GraphicsOverlaysResultsManager.construct results) h = Some h'
    /\ forall a,
         h' a = h a && negb (existsb (Nat.eqb a)
                               (GraphicsOverlaysResultsManager.targets results)).
Proof.
  intros Hnodup Halive.
  unfold GraphicsOverlaysResultsManager.destroy,
    GraphicsOverlaysResultsManager.construct; cbn.
  destruct (qDeleteAll_defined results h Hnodup Halive) as [h' Hh'].
  exists h'. split; [exact Hh'|].
  exact (proj2 (proj2 (qDeleteAll_spec results h h' Hh'))).
Qed.

Lemma destroy_frees_results_witness :
  exists h',
    GraphicsOverlaysResultsManager.destroy
      (GraphicsOverlaysResultsManager.construct [Some 1; None; Some 2])
      (fun a => Nat.leb a 3) = Some h'
    /\ forall a,
         h' a = Nat.leb a 3 && negb (existsb (Nat.eqb a) [1; 2]).
Proof.
  apply (destroy_frees_results [Some 1; None; Some 2] (fun a => Nat.leb a 3)).
  - repeat constructor; cbn; intuition discriminate.
  - intros a [<- | [<- | []]]; reflexivity.
Defined.

(** The destructor is only defined on such a list: a result that occurs
    twice, or one that is not alive any more, is deleted a second time. *)
Theorem destroy_deletes_twice
    (results : list GraphicsOverlaysResultsManager.pointer)
    (h : GraphicsOverlaysResultsManager.Heap) :
  GraphicsOverlaysResultsManager.destroy
    (GraphicsOverlaysResultsManager.construct results) h = None
  <-> ~ (NoDup (GraphicsOverlaysResultsManager.targets results)
         /\ forall a, In a (GraphicsOverlaysResultsManager.targets results) -> h a = true).
Proof.
  unfold GraphicsOverlaysResultsManager.destroy,
    GraphicsOverlaysResultsManager.construct; cbn.
  split.
  - intros Hnone [Hnodup Halive].
    destruct (qDeleteAll_defined results h Hnodup Halive) as [h' Hh'].
    congruence.
  - intros Hnot.
    destruct (GraphicsOverlaysResultsManager.qDeleteAll results h) as [h'|] eqn:Hrun;
      [|reflexivity].
    exfalso. apply Hnot.
    destruct (qDeleteAll_spec results h h' Hrun) as (Hnodup & Halive & _).
    split; assumption.
Qed.
